(** * Olifera storefront server: cart and order routes

    A shallow embedding of [src/routes/cart.js], [src/routes/orders.js] and of
    [sendOrderConfirmationEmail] (the mailer module), over the relational
    schema declared in [src/config/initDatabase.js].

    Conventions of the embedding.
    - A table is the list of its rows in insertion order; [SELECT] returns the
      matching rows in that order, so [rows[0]] is the head of the list.
    - Integers ([INT] columns, JSON numbers) are [Z].  Currency amounts
      ([DECIMAL(10,2)] columns, JS numbers) are [Z] counts of the minor
      currency unit: rounding of binary floating point and the range of the
      SQL column types are outside the model.  [create_order] and the
      [item]s it reads are therefore the handler on requests whose prices are
      whole hundredths and whose quantities are integers;
      [create_order_json], further down, is the same handler on arbitrary
      JSON numbers, with the rounding the DECIMAL(10,2) and INT columns apply
      to what is written, and [create_order_json_refines] relates the two.
    - An [async] handler is a computation in a state-and-exception monad over
      the database; [await executeQuery(...)] is one statement of it.  A
      rejected promise is [Throw]; the state reached so far is kept, which is
      what auto-commit statements outside a transaction do.
    - Values the handlers draw from the environment ([uuidv4()], [Date.now()],
      [Math.random()], the SMTP transport) are arguments of the handlers. *)

From Stdlib Require Import ZArith List String Ascii Bool Lia DecimalString.
From Stdlib Require DecimalPos DecimalZ.
From Stdlib Require Import QArith Qround.
Import ListNotations.
Local Open Scope string_scope.
Local Open Scope Z_scope.

Set Implicit Arguments.

(** ** Schema (config/initDatabase.js) *)

Inductive product_status := active | inactive.

Inductive order_status := pending | processing | shipped | delivered | cancelled.

Record product := mkProduct {
  p_id : Z;
  p_name : string;
  p_price : Z;
  p_stock : Z;
  p_status : product_status }.

Record cart_session := mkCartSession {
  cs_session_id : string;
  cs_user_id : option Z }.

Record cart_item := mkCartItem {
  ci_id : Z;
  ci_session_id : string;
  ci_product_id : Z;
  ci_quantity : Z }.

Record order := mkOrder {
  o_id : Z;
  o_order_number : string;
  o_user_id : Z;
  o_status : order_status;
  o_subtotal : Z;
  o_shipping_cost : Z;
  o_tax_amount : Z;
  o_total_amount : Z;
  o_shipping_address : string;
  o_shipping_city : string;
  o_shipping_state : string;
  o_shipping_zip_code : string;
  o_shipping_method : string }.

Record order_item := mkOrderItem {
  oi_order_id : Z;
  oi_product_id : Z;
  oi_product_name : string;
  oi_product_price : Z;
  oi_quantity : Z;
  oi_total_price : Z }.

(** The tables the two routers touch, with the AUTO_INCREMENT counters of the
    tables whose generated ids the code reads back. *)
Record Db := mkDb {
  products : list product;
  cart_sessions : list cart_session;
  cart_items : list cart_item;
  next_cart_item_id : Z;
  orders : list order;
  next_order_id : Z;
  order_items : list order_item }.

Definition set_products (ps : list product) (db : Db) : Db :=
  mkDb ps (cart_sessions db) (cart_items db) (next_cart_item_id db)
       (orders db) (next_order_id db) (order_items db).

Definition set_cart_sessions (ss : list cart_session) (db : Db) : Db :=
  mkDb (products db) ss (cart_items db) (next_cart_item_id db)
       (orders db) (next_order_id db) (order_items db).

Definition set_cart_items (cs : list cart_item) (db : Db) : Db :=
  mkDb (products db) (cart_sessions db) cs (next_cart_item_id db)
       (orders db) (next_order_id db) (order_items db).

Definition set_orders (os : list order) (db : Db) : Db :=
  mkDb (products db) (cart_sessions db) (cart_items db) (next_cart_item_id db)
       os (next_order_id db) (order_items db).

Definition set_order_items (ois : list order_item) (db : Db) : Db :=
  mkDb (products db) (cart_sessions db) (cart_items db) (next_cart_item_id db)
       (orders db) (next_order_id db) ois.

(** ** The handler monad *)

Inductive error := ER_DUP_ENTRY | ER_NO_REFERENCED_ROW | TypeError.

Inductive outcome (A : Type) : Type :=
| Ok (a : A)
| Throw (e : error).
Arguments Ok {A} a.
Arguments Throw {A} e.

Definition M (A : Type) : Type := Db -> outcome A * Db.

Definition ret {A} (a : A) : M A := fun db => (Ok a, db).

Definition throw {A} (e : error) : M A := fun db => (Throw e, db).

Definition bind {A B} (m : M A) (k : A -> M B) : M B :=
  fun db => match m db with
            | (Ok a, db') => k a db'
            | (Throw e, db') => (Throw e, db')
            end.

Declare Scope handler_scope.
Delimit Scope handler_scope with handler.
Notation "x <- m ;; k" := (bind m (fun x => k))
  (at level 61, m at next level, right associativity) : handler_scope.
Notation "m ;;; k" := (bind m (fun _ => k))
  (at level 61, right associativity) : handler_scope.
Local Open Scope handler_scope.

(** [for (const x of xs) { await body(x) }] *)
Fixpoint for_of {A} (xs : list A) (body : A -> M unit) : M unit :=
  match xs with
  | [] => ret tt
  | x :: rest => body x ;;; for_of rest body
  end.

(** ** Responses *)

Inductive body :=
| Message (message : string)
| ValidationFailed (message : string) (errors : list string)
| ItemAdded (message : string) (sessionId : option string)
| OrderCreated (message : string) (id : Z) (orderNumber : string) (totalAmount : Z).

Record response := mkResponse { status : Z; json : body }.

(** [try { ... } catch (error) { res.status(500).json({ message }) }] *)
Definition try_catch (m : M response) (message : string) : Db -> response * Db :=
  fun db => match m db with
            | (Ok r, db') => (r, db')
            | (Throw _, db') => (mkResponse 500 (Message message), db')
            end.

(** ** Small JavaScript helpers *)

Definition string_of_Z (z : Z) : string := NilZero.string_of_int (Z.to_int z).

Fixpoint pad_zeros (k : nat) (s : string) : string :=
  match k with
  | O => s
  | S k' => String "0"%char (pad_zeros k' s)
  end.

(** [s.padStart(n, '0')] *)
Definition padStart (n : nat) (s : string) : string :=
  pad_zeros (n - String.length s) s.

Definition is_empty {A} (l : list A) : bool :=
  match l with [] => true | _ => false end.

(** [!s] for a string-or-missing request field. *)
Definition falsy_string (s : option string) : bool :=
  match s with
  | None => true
  | Some s => String.eqb s ""
  end.

Definition option_Z_eqb (a : option Z) (b : Z) : bool :=
  match a with
  | Some x => x =? b
  | None => false
  end.

(** ** Persistence access layer *)

(** The statements of a transaction, run in order until one fails. *)
Fixpoint run_queries {A} (queries : list (M A)) : M (list A) :=
  match queries with
  | [] => ret []
  | q :: rest => r <- q ;; rs <- run_queries rest ;; ret (r :: rs)
  end.

(** Modelled from the spec: [config/database.js] ([executeQuery],
    [executeTransaction]) is not among the sources.  The spec describes it as
    the layer that "executes parameterized queries/transactions against a
    relational store", a transaction being all-or-nothing with a rollback on
    failure.  [executeTransaction] commits the writes of all its statements
    and returns their results, or restores the database and rethrows.  Each
    SQL text the routes pass to [executeQuery] is given, further down, its
    meaning on the tables under the UNIQUE and FOREIGN KEY constraints of the
    schema. *)
Definition executeTransaction {A} (queries : list (M A)) : M (list A) :=
  fun db =>
    match run_queries queries db with
    | (Ok results, db') => (Ok results, db')   (* COMMIT *)
    | (Throw e, _) => (Throw e, db)            (* ROLLBACK *)
    end.

Definition product_exists (pid : Z) (db : Db) : bool :=
  existsb (fun p => p_id p =? pid) (products db).

(** [SELECT session_id FROM cart_sessions WHERE user_id = ?] *)
Definition select_sessions_of_user (userId : Z) : M (list string) :=
  fun db =>
    (Ok (map cs_session_id
             (filter (fun s => option_Z_eqb (cs_user_id s) userId) (cart_sessions db))),
     db).

(** [INSERT INTO cart_sessions (session_id, user_id) VALUES (?, ?)] and
    [INSERT INTO cart_sessions (session_id) VALUES (?)]; [session_id] is
    UNIQUE. *)
Definition insert_cart_session (sessionId : string) (userId : option Z) : M unit :=
  fun db =>
    if existsb (fun s => String.eqb (cs_session_id s) sessionId) (cart_sessions db)
    then (Throw ER_DUP_ENTRY, db)
    else (Ok tt, set_cart_sessions (cart_sessions db ++ [mkCartSession sessionId userId]) db).

(** [SELECT id, name, price, stock FROM products WHERE id = ? AND status = "active"] *)
Definition select_active_product (productId : Z) : M (list product) :=
  fun db =>
    (Ok (filter (fun p => (p_id p =? productId) &&
                          match p_status p with active => true | inactive => false end)
                (products db)),
     db).

(** [SELECT id, quantity FROM cart_items WHERE session_id = ? AND product_id = ?] *)
Definition select_cart_line (sessionId : string) (productId : Z) : M (list cart_item) :=
  fun db =>
    (Ok (filter (fun c => String.eqb (ci_session_id c) sessionId &&
                          (ci_product_id c =? productId))
                (cart_items db)),
     db).

(** [UPDATE cart_items SET quantity = ?, updated_at = CURRENT_TIMESTAMP WHERE id = ?] *)
Definition update_cart_item_quantity (quantity id : Z) : M unit :=
  fun db =>
    (Ok tt,
     set_cart_items
       (map (fun c => if ci_id c =? id
                      then mkCartItem (ci_id c) (ci_session_id c) (ci_product_id c) quantity
                      else c)
            (cart_items db))
       db).

(** [INSERT INTO cart_items (session_id, product_id, quantity) VALUES (?, ?, ?)];
    [product_id] references [products(id)] and [(session_id, product_id)] is
    UNIQUE. *)
Definition insert_cart_item (sessionId : string) (productId quantity : Z) : M unit :=
  fun db =>
    if negb (product_exists productId db) then (Throw ER_NO_REFERENCED_ROW, db)
    else if existsb (fun c => String.eqb (ci_session_id c) sessionId &&
                              (ci_product_id c =? productId))
                    (cart_items db)
    then (Throw ER_DUP_ENTRY, db)
    else
      (Ok tt,
       mkDb (products db) (cart_sessions db)
            (cart_items db ++
               [mkCartItem (next_cart_item_id db) sessionId productId quantity])
            (next_cart_item_id db + 1)
            (orders db) (next_order_id db) (order_items db)).

(** [SELECT ci.*, p.stock, p.name FROM cart_items ci
     JOIN products p ON ci.product_id = p.id WHERE ci.id = ?];
    a row is the cart line with the stock of its product. *)
Definition select_cart_item_with_stock (itemId : Z) : M (list (cart_item * Z)) :=
  fun db =>
    (Ok (flat_map
           (fun c => map (fun p => (c, p_stock p))
                         (filter (fun p => p_id p =? ci_product_id c) (products db)))
           (filter (fun c => ci_id c =? itemId) (cart_items db))),
     db).

(** [SELECT id FROM cart_sessions WHERE session_id = ? AND user_id = ?] *)
Definition select_session_of_user (sessionId : string) (userId : Z)
  : M (list cart_session) :=
  fun db =>
    (Ok (filter (fun s => String.eqb (cs_session_id s) sessionId &&
                          option_Z_eqb (cs_user_id s) userId)
                (cart_sessions db)),
     db).

(** [DELETE FROM cart_items WHERE id = ?] *)
Definition delete_cart_item (itemId : Z) : M unit :=
  fun db =>
    (Ok tt, set_cart_items (filter (fun c => negb (ci_id c =? itemId)) (cart_items db)) db).

(** [SELECT session_id FROM cart_items WHERE id = ?] *)
Definition select_cart_item (itemId : Z) : M (list cart_item) :=
  fun db => (Ok (filter (fun c => ci_id c =? itemId) (cart_items db)), db).

(** [SELECT product_id, quantity FROM cart_items WHERE session_id = ?] *)
Definition select_cart_items_of_session (sessionId : string) : M (list cart_item) :=
  fun db =>
    (Ok (filter (fun c => String.eqb (ci_session_id c) sessionId) (cart_items db)), db).

(** [DELETE FROM cart_sessions WHERE session_id = ?] *)
Definition delete_cart_session (sessionId : string) : M unit :=
  fun db =>
    (Ok tt,
     set_cart_sessions
       (filter (fun s => negb (String.eqb (cs_session_id s) sessionId)) (cart_sessions db))
       db).

(** [DELETE FROM cart_items WHERE session_id = ?] *)
Definition delete_cart_items_of_session (sessionId : string) : M unit :=
  fun db =>
    (Ok tt,
     set_cart_items
       (filter (fun c => negb (String.eqb (ci_session_id c) sessionId)) (cart_items db))
       db).

(** ** routes/cart.js *)

(** [getOrCreateCartSession(userId = null)]; [uuid] is the value [uuidv4()]
    returns when it is called.  [if (userId)] is false for a missing id and
    for the number 0. *)
Definition getOrCreateCartSession (userId : option Z) (uuid : string) : M string :=
  match userId with
  | Some uid =>
      if uid =? 0 then
        insert_cart_session uuid None ;;; ret uuid
      else
        sessions <- select_sessions_of_user uid ;;
        match sessions with
        | s :: _ => ret s
        | [] => insert_cart_session uuid (Some uid) ;;; ret uuid
        end
  | None =>
      insert_cart_session uuid None ;;; ret uuid
  end.

(** The two [body(...).isInt({ min: 1 })] validators of POST /add, on a
    product id and a quantity sent as JSON numbers.  A numeric string such
    as "3" passes [isInt] as well and is left a string, so that the later
    [existingItems[0].quantity + quantity] concatenates; requests of that
    kind are outside this embedding. *)
Definition validate_add (productId quantity : Z) : list string :=
  (if 1 <=? productId then [] else ["Valid product ID is required"]) ++
  (if 1 <=? quantity then [] else ["Valid quantity is required"]).

(** [router.post('/add', optionalAuth, ...)]; [user] is [req.user.id] when the
    optional authentication found a user. *)
Definition cart_add (user : option Z) (productId quantity : Z) (uuid : string)
  : Db -> response * Db :=
  try_catch
    (let errors := validate_add productId quantity in
     if negb (is_empty errors) then
       ret (mkResponse 400 (ValidationFailed "Validation failed" errors))
     else
       found <- select_active_product productId ;;
       match found with
       | [] => ret (mkResponse 404 (Message "Product not found"))
       | product :: _ =>
           if p_stock product <? quantity then
             ret (mkResponse 400
                    (Message ("Only " ++ string_of_Z (p_stock product)
                              ++ " items available in stock")))
           else
             sessionId <- getOrCreateCartSession user uuid ;;
             existingItems <- select_cart_line sessionId productId ;;
             match existingItems with
             | existing :: _ =>
                 let newQuantity := ci_quantity existing + quantity in
                 if newQuantity >? p_stock product then
                   ret (mkResponse 400
                          (Message ("Cannot add more items. Only "
                                    ++ string_of_Z (p_stock product)
                                    ++ " available in stock")))
                 else
                   update_cart_item_quantity newQuantity (ci_id existing) ;;;
                   ret (mkResponse 200
                          (ItemAdded "Item added to cart successfully"
                             (match user with Some _ => None | None => Some sessionId end)))
             | [] =>
                 insert_cart_item sessionId productId quantity ;;;
                 ret (mkResponse 200
                        (ItemAdded "Item added to cart successfully"
                           (match user with Some _ => None | None => Some sessionId end)))
             end
       end)
    "Failed to add item to cart".

(** The ownership check shared by PUT /update/:itemId and
    DELETE /remove/:itemId:
    [if (req.user) { sessions = SELECT ...; if (sessions.length === 0) 403 }].
    The result says whether access is denied. *)
Definition access_denied (user : option Z) (item_session : string) : M bool :=
  match user with
  | Some uid =>
      sessions <- select_session_of_user item_session uid ;;
      ret (is_empty sessions)
  | None => ret false
  end.

(** [router.put('/update/:itemId', optionalAuth, ...)], for a path
    parameter that [parseInt] reads as an integer and a quantity sent as a
    JSON number.  The statements it issues are SELECTs, an UPDATE and a
    DELETE by id, none of which a constraint of the schema can reject; a
    rejection of a query for any other reason (connection, a NaN id) would
    reach the [catch] and is not represented. *)
Definition cart_update (user : option Z) (itemId quantity : Z) : Db -> response * Db :=
  try_catch
    (if negb (0 <=? quantity) then
       ret (mkResponse 400
              (ValidationFailed "Validation failed" ["Valid quantity is required"]))
     else
       cartItems <- select_cart_item_with_stock itemId ;;
       match cartItems with
       | [] => ret (mkResponse 404 (Message "Cart item not found"))
       | (cartItem, stock) :: _ =>
           denied <- access_denied user (ci_session_id cartItem) ;;
           if denied then ret (mkResponse 403 (Message "Access denied"))
           else if quantity =? 0 then
             delete_cart_item itemId ;;;
             ret (mkResponse 200 (Message "Item removed from cart"))
           else if quantity >? stock then
             ret (mkResponse 400
                    (Message ("Only " ++ string_of_Z stock ++ " items available in stock")))
           else
             update_cart_item_quantity quantity itemId ;;;
             ret (mkResponse 200 (Message "Cart updated successfully"))
       end)
    "Failed to update cart".

(** [router.delete('/remove/:itemId', optionalAuth, ...)], for a path
    parameter that [parseInt] reads as an integer. *)
Definition cart_remove (user : option Z) (itemId : Z) : Db -> response * Db :=
  try_catch
    (cartItems <- select_cart_item itemId ;;
     match cartItems with
     | [] => ret (mkResponse 404 (Message "Cart item not found"))
     | cartItem :: _ =>
         denied <- access_denied user (ci_session_id cartItem) ;;
         if denied then ret (mkResponse 403 (Message "Access denied"))
         else
           delete_cart_item itemId ;;;
           ret (mkResponse 200 (Message "Item removed from cart"))
     end)
    "Failed to remove item from cart".

(** The body of the merge loop: one guest line is added to the line the user
    already has for that product, or inserted into the user's session. *)
Definition merge_item (userSessionId : string) (item : cart_item) : M unit :=
  existingItems <- select_cart_line userSessionId (ci_product_id item) ;;
  match existingItems with
  | existing :: _ =>
      let newQuantity := ci_quantity existing + ci_quantity item in
      update_cart_item_quantity newQuantity (ci_id existing)
  | [] =>
      insert_cart_item userSessionId (ci_product_id item) (ci_quantity item)
  end.

(** [router.post('/merge', authenticateToken, ...)]; [user] is [req.user.id],
    [sessionId] is [req.body.sessionId]. *)
Definition cart_merge (user : Z) (sessionId : option string) (uuid : string)
  : Db -> response * Db :=
  try_catch
    (match sessionId with
     | None => ret (mkResponse 400 (Message "Session ID is required"))
     | Some sid =>
         if falsy_string sessionId then
           ret (mkResponse 400 (Message "Session ID is required"))
         else
           userSessions <- select_sessions_of_user user ;;
           userSessionId <-
             match userSessions with
             | [] => insert_cart_session uuid (Some user) ;;; ret uuid
             | s :: _ => ret s
             end ;;
           guestItems <- select_cart_items_of_session sid ;;
           for_of guestItems (merge_item userSessionId) ;;;
           delete_cart_session sid ;;;
           delete_cart_items_of_session sid ;;;
           ret (mkResponse 200 (Message "Cart merged successfully"))
     end)
    "Failed to merge cart".

(** ** Statements of routes/orders.js *)

(** [INSERT INTO orders (order_number, user_id, status, subtotal, shipping_cost,
     tax_amount, total_amount, shipping_address, shipping_city, shipping_state,
     shipping_zip_code, shipping_method) VALUES (...)]; [order_number] is
    UNIQUE; the result is [insertId].  The failure represented is that of
    the key; NOT NULL, the length of VARCHAR columns and the range of
    DECIMAL(10,2) are not. *)
Definition insert_order (orderNumber : string) (userId : Z) (st : order_status)
    (subtotal shippingCost taxAmount totalAmount : Z)
    (address city state zipCode method : string) : M Z :=
  fun db =>
    if existsb (fun o => String.eqb (o_order_number o) orderNumber) (orders db)
    then (Throw ER_DUP_ENTRY, db)
    else
      (Ok (next_order_id db),
       mkDb (products db) (cart_sessions db) (cart_items db) (next_cart_item_id db)
            (orders db ++
               [mkOrder (next_order_id db) orderNumber userId st
                        subtotal shippingCost taxAmount totalAmount
                        address city state zipCode method])
            (next_order_id db + 1)
            (order_items db)).

(** [INSERT INTO order_items (order_id, product_id, product_name, product_price,
     quantity, total_price) VALUES (?, ?, ?, ?, ?, ?)]; [order_id] references
    [orders(id)] and [product_id] references [products(id)].  The failures
    represented are those of the keys; NOT NULL, the length of VARCHAR
    columns and the range of DECIMAL(10,2) and INT are not. *)
Definition insert_order_item (row : order_item) : M unit :=
  fun db =>
    if existsb (fun o => o_id o =? oi_order_id row) (orders db) &&
       product_exists (oi_product_id row) db
    then (Ok tt, set_order_items (order_items db ++ [row]) db)
    else (Throw ER_NO_REFERENCED_ROW, db).

(** The rows of [products] after [SET stock = stock - ? WHERE id = ?]. *)
Definition stock_minus (quantity productId : Z) (ps : list product) : list product :=
  map (fun p => if p_id p =? productId
                then mkProduct (p_id p) (p_name p) (p_price p)
                               (p_stock p - quantity) (p_status p)
                else p)
      ps.

(** The rows of [products] after [SET stock = stock + ? WHERE id = ?]. *)
Definition stock_plus (quantity productId : Z) (ps : list product) : list product :=
  map (fun p => if p_id p =? productId
                then mkProduct (p_id p) (p_name p) (p_price p)
                               (p_stock p + quantity) (p_status p)
                else p)
      ps.

(** [UPDATE products SET stock = stock - ? WHERE id = ?] *)
Definition decrement_stock (quantity productId : Z) : M unit :=
  fun db => (Ok tt, set_products (stock_minus quantity productId (products db)) db).

(** [UPDATE products SET stock = stock + ? WHERE id = ?] *)
Definition increment_stock (quantity productId : Z) : M unit :=
  fun db => (Ok tt, set_products (stock_plus quantity productId (products db)) db).

(** [SELECT id, status FROM orders WHERE id = ? AND user_id = ?] *)
Definition select_order_of_user (orderId userId : Z) : M (list order) :=
  fun db =>
    (Ok (filter (fun o => (o_id o =? orderId) && (o_user_id o =? userId)) (orders db)), db).

Definition with_status (st : order_status) (o : order) : order :=
  mkOrder (o_id o) (o_order_number o) (o_user_id o) st
          (o_subtotal o) (o_shipping_cost o) (o_tax_amount o) (o_total_amount o)
          (o_shipping_address o) (o_shipping_city o) (o_shipping_state o)
          (o_shipping_zip_code o) (o_shipping_method o).

(** The rows of [orders] after [SET status = "cancelled" WHERE id = ?]. *)
Definition mark_cancelled (orderId : Z) (os : list order) : list order :=
  map (fun o => if o_id o =? orderId then with_status cancelled o else o) os.

(** [UPDATE orders SET status = "cancelled", updated_at = CURRENT_TIMESTAMP WHERE id = ?] *)
Definition set_order_cancelled (orderId : Z) : M unit :=
  fun db => (Ok tt, set_orders (mark_cancelled orderId (orders db)) db).

(** [SELECT product_id, quantity FROM order_items WHERE order_id = ?] *)
Definition select_order_items (orderId : Z) : M (list order_item) :=
  fun db => (Ok (filter (fun i => oi_order_id i =? orderId) (order_items db)), db).

(** ** The mailer: sendOrderConfirmationEmail *)

(** An element of the [orderItems] array built by POST /orders. *)
Record order_line := mkOrderLine {
  product_id : Z;
  product_name : string;
  product_price : Z;
  quantity : Z;
  total_price : Z }.

Record order_details := mkOrderDetails {
  od_orderId : string;
  od_customerName : string;
  od_customerEmail : option string;
  od_shippingAddress : string;
  od_items : list order_line;
  od_totalAmount : string;
  od_status : string;
  od_shippingMethod : string;
  od_phone : string }.

(** [mailOptions]; the HTML body is determined by the order details. *)
Record mail_options := mkMail {
  mail_to : list (option string);
  mail_subject : string;
  mail_html : order_details }.

(** [sendOrderConfirmationEmail(orderDetails, recipientEmail)].  [sendMail]
    is [transporter.sendMail]: it resolves to a message id or rejects
    ([None]).  The whole body is inside [try { ... } catch { return false }]. *)
Definition sendOrderConfirmationEmail (sendMail : mail_options -> option string)
    (orderDetails : order_details) (recipientEmail : list (option string)) : M bool :=
  let mailOptions :=
    mkMail recipientEmail
           ("Order " ++
            (if String.eqb (od_status orderDetails) "pending" then "Received" else "Updated")
            ++ " @ Olifera.in #" ++ od_orderId orderDetails)
           orderDetails in
  match sendMail mailOptions with
  | Some _ => ret true
  | None => ret false
  end.

(** ** routes/orders.js *)

(** [generateOrderNumber()]: [now] is [Date.now()], [random] is
    [Math.floor(Math.random() * 1000)]. *)
Definition generateOrderNumber (now random : Z) : string :=
  "ORD-" ++ string_of_Z now ++ "-" ++ padStart 3 (string_of_Z random).

(** [amount.toFixed(2)] for an amount counted in hundredths. *)
Definition toFixed2 (amount : Z) : string :=
  (if amount <? 0 then "-" else "") ++
  string_of_Z (Z.abs amount / 100) ++ "." ++ padStart 2 (string_of_Z (Z.abs amount mod 100)).

Record shipping_address := mkShipping {
  firstName : string;
  lastName : string;
  address : string;
  city : string;
  state : string;
  zipCode : string;
  phone : string;
  email : option string }.

(** An element of [req.body.items]. *)
Record item := mkItem {
  item_product : Z;
  item_name : string;
  item_price : Z;
  item_quantity : Z }.

Record order_request := mkOrderRequest {
  shippingAddress : shipping_address;
  items : list item;
  deliveryMethod : string }.

(** What POST /orders reads from outside the request and the database. *)
Record environment := mkEnv {
  now : Z;
  random : Z;
  ADMIN_EMAIL : option string;
  sendMail : mail_options -> option string }.

Definition notEmpty (field message : string) : list string :=
  if String.eqb field "" then [message] else [].

Definition validate_order (req : order_request) : list string :=
  notEmpty (firstName (shippingAddress req)) "First name is required" ++
  notEmpty (lastName (shippingAddress req)) "Last name is required" ++
  notEmpty (address (shippingAddress req)) "Shipping address is required" ++
  notEmpty (city (shippingAddress req)) "Shipping city is required" ++
  notEmpty (state (shippingAddress req)) "Shipping state is required" ++
  notEmpty (zipCode (shippingAddress req)) "Shipping zip code is required" ++
  notEmpty (phone (shippingAddress req)) "Phone number is required" ++
  notEmpty (deliveryMethod req) "Delivery method is required" ++
  (if is_empty (items req) then ["Cart items cannot be empty"] else []).

(** The first loop of POST /orders: [subtotal += itemTotal] and
    [orderItems.push({...})] for each submitted item. *)
Definition collect_items (items : list item) : Z * list order_line :=
  fold_left
    (fun (acc : Z * list order_line) (it : item) =>
       let itemTotal := item_price it * item_quantity it in
       (fst acc + itemTotal,
        (snd acc ++ [mkOrderLine (item_product it) (item_name it) (item_price it)
                                 (item_quantity it) itemTotal])%list))
    items (0, []).

(** The row of [order_items] written for one element of [orderItems]. *)
Definition order_item_row (orderId : Z) (line : order_line) : order_item :=
  mkOrderItem orderId (product_id line) (product_name line) (product_price line)
              (quantity line) (total_price line).

(** The body of the second loop: one order line is inserted, then the stock
    of its product is decremented. *)
Definition persist_line (orderId : Z) (line : order_line) : M unit :=
  insert_order_item (order_item_row orderId line) ;;;
  decrement_stock (quantity line) (product_id line).

(** [router.post('/', authenticateToken, [...], ...)]; [user] is [req.user.id]. *)
Definition create_order (env : environment) (user : Z) (req : order_request)
  : Db -> response * Db :=
  try_catch
    (let errors := validate_order req in
     if negb (is_empty errors) then
       ret (mkResponse 400 (ValidationFailed "Validation failed" errors))
     else
       let (subtotal, orderItems) := collect_items (items req) in
       let shippingCost := 0 in
       let taxAmount := 0 in
       let totalAmount := subtotal + shippingCost + taxAmount in
       let orderNumber := generateOrderNumber (now env) (random env) in
       let sa := shippingAddress req in
       let orderInsertQuery :=
         insert_order orderNumber user pending subtotal shippingCost taxAmount totalAmount
                      (address sa) (city sa) (state sa) (zipCode sa) (deliveryMethod req) in
       results <- executeTransaction [orderInsertQuery] ;;
       match results with
       | [] => throw TypeError
       | orderId :: _ =>
           for_of orderItems (persist_line orderId) ;;;
           _sent <- sendOrderConfirmationEmail (sendMail env)
                      (mkOrderDetails orderNumber
                         (firstName sa ++ " " ++ lastName sa)
                         (email sa)
                         (address sa ++ ", " ++ city sa ++ ", " ++ state sa ++ " " ++ zipCode sa)
                         orderItems
                         (toFixed2 totalAmount)
                         "pending"
                         (deliveryMethod req)
                         (phone sa))
                      [ADMIN_EMAIL env; email sa] ;;
           ret (mkResponse 201
                  (OrderCreated "Order created successfully" orderId orderNumber totalAmount))
       end)
    "Failed to create order".

(** [router.post('/:id/cancel', authenticateToken, ...)]; [user] is [req.user.id]. *)
Definition cancel_order (user orderId : Z) : Db -> response * Db :=
  try_catch
    (found <- select_order_of_user orderId user ;;
     match found with
     | [] => ret (mkResponse 404 (Message "Order not found"))
     | order :: _ =>
         match o_status order with
         | cancelled => ret (mkResponse 400 (Message "Order is already cancelled"))
         | delivered => ret (mkResponse 400 (Message "Cannot cancel delivered order"))
         | _ =>
             set_order_cancelled orderId ;;;
             orderItems <- select_order_items orderId ;;
             for_of orderItems
                    (fun it => increment_stock (oi_quantity it) (oi_product_id it)) ;;;
             ret (mkResponse 200 (Message "Order cancelled successfully"))
         end
     end)
    "Failed to cancel order".

(** ** Vocabulary of the properties *)

(** The sum over the submitted items of [price * quantity]. *)
Definition subtotal_of (its : list item) : Z :=
  fold_right (fun it acc => item_price it * item_quantity it + acc) 0 its.

(** The snapshot of one submitted item. *)
Definition line_of_item (it : item) : order_line :=
  mkOrderLine (item_product it) (item_name it) (item_price it) (item_quantity it)
              (item_price it * item_quantity it).

(** The stock decrements of a list of order lines, in order. *)
Definition decrement_all (lines : list order_line) (ps : list product) : list product :=
  fold_left (fun acc l => stock_minus (quantity l) (product_id l) acc) lines ps.

(** The lines of one order. *)
Definition lines_of_order (orderId : Z) (db : Db) : list order_item :=
  filter (fun l => oi_order_id l =? orderId) (order_items db).

(** The total quantity that a list of order lines holds of one product. *)
Definition quantity_of (productId : Z) (lines : list order_item) : Z :=
  fold_right (fun l acc => if oi_product_id l =? productId then oi_quantity l + acc else acc)
             0 lines.

(** A product with every quantity that [lines] holds of it added back to its
    stock, each line counted once. *)
Definition restocked (lines : list order_item) (p : product) : product :=
  mkProduct (p_id p) (p_name p) (p_price p)
            (p_stock p + quantity_of (p_id p) lines) (p_status p).

(** [uuid] names no cart session and no cart line: what [uuidv4()] is
    relied on to return. *)
Definition unused_session (uuid : string) (db : Db) : Prop :=
  existsb (fun s => String.eqb (cs_session_id s) uuid) (cart_sessions db) = false /\
  existsb (fun c => String.eqb (ci_session_id c) uuid) (cart_items db) = false.

(** The success response of POST /cart/add. *)
Definition item_added (sessionId : option string) : response :=
  mkResponse 200 (ItemAdded "Item added to cart successfully" sessionId).

(** The sessions bound to a user, in table order. *)
Definition sessions_of (uid : Z) (db : Db) : list cart_session :=
  filter (fun s => option_Z_eqb (cs_user_id s) uid) (cart_sessions db).

(** The session POST /cart/add resolves for an authenticated user: the first
    one bound to the user, or the freshly generated one. *)
Definition session_of_user (uid : Z) (uuid : string) (db : Db) : string :=
  match sessions_of uid db with
  | s :: _ => cs_session_id s
  | [] => uuid
  end.

(** The [cart_sessions] table once that session has been resolved. *)
Definition sessions_resolved (uid : Z) (uuid : string) (db : Db) : list cart_session :=
  match sessions_of uid db with
  | _ :: _ => cart_sessions db
  | [] => (cart_sessions db ++ [mkCartSession uuid (Some uid)])%list
  end.

(** Invariant of [cart_items]: at most one line per (session, product). *)
Definition one_line_per_product (items : list cart_item) : Prop :=
  NoDup (map (fun c => (ci_session_id c, ci_product_id c)) items).

(** The database with one more cart line, [n] being the id it received. *)
Definition with_line (db : Db) (sessions : list cart_session)
    (n : Z) (sid : string) (P q : Z) : Db :=
  mkDb (products db) sessions
       (cart_items db ++ [mkCartItem n sid P q])
       (n + 1) (orders db) (next_order_id db) (order_items db).


(** ** Sample data

    The scenario of the specification: one active product priced 5.00 with
    10 units in stock, bought by user 7. *)

Definition sample_product : product := mkProduct 1 "Olive oil" 500 10 active.

Definition sample_db : Db := mkDb [sample_product] [] [] 1 [] 1 [].

Definition sample_address : shipping_address :=
  mkShipping "Asha" "Rao" "1 Mill Road" "Pune" "MH" "411001" "555-0100"
             (Some "asha@example.com").

(** A transport that always rejects. *)
Definition smtp_down : mail_options -> option string := fun _ => None.

Definition sample_env : environment :=
  mkEnv 1700000000000 7 (Some "admin@example.com") smtp_down.

Definition sample_request (quantity : Z) (method : string) : order_request :=
  mkOrderRequest sample_address [mkItem 1 "Olive oil" 500 quantity] method.

(** User 7 has a cart session holding 4 units of the product. *)
Definition sample_cart_db : Db :=
  mkDb [sample_product] [mkCartSession "s-7" (Some 7)] [mkCartItem 1 "s-7" 1 4] 2 [] 1 [].

(** User 7 holds 4 units in session "s-7"; a guest session "g-1" holds 3
    units of the same product. *)
Definition sample_merge_db : Db :=
  mkDb [sample_product]
       [mkCartSession "s-7" (Some 7); mkCartSession "g-1" None]
       [mkCartItem 1 "s-7" 1 4; mkCartItem 2 "g-1" 1 3] 3 [] 1 [].

(** ** The remaining cart and order routes *)

(** [router.delete('/clear', optionalAuth, ...)]; [user] is [req.user.id]
    when there is a [req.user], [querySessionId] is [req.query.sessionId]. *)
Definition cart_clear (user : option Z) (querySessionId : option string)
  : Db -> response * Db :=
  try_catch
    (match user with
     | Some uid =>
         sessions <- select_sessions_of_user uid ;;
         match sessions with
         | [] => ret (mkResponse 200 (Message "Cart is already empty"))
         | sessionId :: _ =>
             delete_cart_items_of_session sessionId ;;;
             ret (mkResponse 200 (Message "Cart cleared successfully"))
         end
     | None =>
         match querySessionId with
         | None => ret (mkResponse 200 (Message "Cart is already empty"))
         | Some sessionId =>
             if falsy_string querySessionId then
               ret (mkResponse 200 (Message "Cart is already empty"))
             else
               delete_cart_items_of_session sessionId ;;;
               ret (mkResponse 200 (Message "Cart cleared successfully"))
         end
     end)
    "Failed to clear cart".

(** The member of the [status] ENUM of [orders] that a string denotes. *)
Definition status_of_string (s : string) : option order_status :=
  if String.eqb s "pending" then Some pending
  else if String.eqb s "processing" then Some processing
  else if String.eqb s "shipped" then Some shipped
  else if String.eqb s "delivered" then Some delivered
  else if String.eqb s "cancelled" then Some cancelled
  else None.

(** [body('status').isIn(['pending', 'processing', 'shipped', 'delivered',
    'cancelled'])] *)
Definition validate_status (s : string) : list string :=
  if existsb (String.eqb s) ["pending"; "processing"; "shipped"; "delivered"; "cancelled"]
  then [] else ["Invalid status"].

(** [SELECT id FROM orders WHERE id = ?] *)
Definition select_order (orderId : Z) : M (list order) :=
  fun db => (Ok (filter (fun o => o_id o =? orderId) (orders db)), db).

(** [UPDATE orders SET status = ?, updated_at = CURRENT_TIMESTAMP WHERE id = ?];
    the server rejects a string that is not a member of the ENUM. *)
Definition set_order_status (s : string) (orderId : Z) : M unit :=
  fun db =>
    match status_of_string s with
    | Some st =>
        (Ok tt,
         set_orders (map (fun o => if o_id o =? orderId then with_status st o else o)
                         (orders db)) db)
    | None => (Throw TypeError, db)
    end.

(** [router.put('/:id/status', [authenticateToken, requireAdmin], ...)], once
    the two middlewares have let the request through. *)
Definition update_order_status (orderId : Z) (newStatus : string) : Db -> response * Db :=
  try_catch
    (let errors := validate_status newStatus in
     if negb (is_empty errors) then
       ret (mkResponse 400 (ValidationFailed "Validation failed" errors))
     else
       found <- select_order orderId ;;
       match found with
       | [] => ret (mkResponse 404 (Message "Order not found"))
       | _ :: _ =>
           set_order_status newStatus orderId ;;;
           ret (mkResponse 200 (Message "Order status updated successfully"))
       end)
    "Failed to update order status".

(** The row of the statistics query of GET /admin/stats.  [COUNT( * )] is a
    number; each [SUM(...)] is NULL ([None]) on an empty table. *)
Record order_stats := mkStats {
  total_orders : Z;
  pending_orders : option Z;
  processing_orders : option Z;
  shipped_orders : option Z;
  delivered_orders : option Z;
  cancelled_orders : option Z;
  total_revenue : option Z }.

(** [SUM(e)] over the rows of [orders]. *)
Definition sql_sum (e : order -> Z) (os : list order) : option Z :=
  match os with
  | [] => None
  | _ :: _ => Some (fold_right (fun o acc => e o + acc) 0 os)
  end.

Definition status_eqb (a b : order_status) : bool :=
  match a, b with
  | pending, pending | processing, processing | shipped, shipped
  | delivered, delivered | cancelled, cancelled => true
  | _, _ => false
  end.

(** [SELECT COUNT( * ) as total_orders,
     SUM(CASE WHEN status = 'pending' THEN 1 ELSE 0 END) as pending_orders, ...,
     SUM(total_amount) as total_revenue FROM orders] *)
Definition select_order_stats : M order_stats :=
  fun db =>
    let count st := sql_sum (fun o => if status_eqb (o_status o) st then 1 else 0)
                            (orders db) in
    (Ok (mkStats (Z.of_nat (List.length (orders db)))
                 (count pending) (count processing) (count shipped)
                 (count delivered) (count cancelled)
                 (sql_sum o_total_amount (orders db))),
     db).

(** ** Vocabulary of the further properties *)


(** The total quantity a session holds of one product in [cart_items]. *)
Definition cart_quantity (sessionId : string) (productId : Z) (cs : list cart_item) : Z :=
  fold_right (fun c acc => if String.eqb (ci_session_id c) sessionId &&
                              (ci_product_id c =? productId)
                           then ci_quantity c + acc else acc) 0 cs.

(** What identifies a product apart from its stock. *)
Definition product_identity (p : product) : Z * string * Z * product_status :=
  (p_id p, p_name p, p_price p, p_status p).


(** AUTO_INCREMENT discipline of [cart_items]: ids are distinct and below
    the next one to be handed out. *)
Definition cart_ids_in_use (cs : list cart_item) (next : Z) : Prop :=
  NoDup (map ci_id cs) /\ Forall (fun c => ci_id c < next) cs.

(** The order as user 7 placed it in the sample scenario, and the database
    it was placed in. *)
Definition sample_order : order :=
  mkOrder 1 "ORD-1700000000000-007" 7 pending 2000 0 0 2000
          "1 Mill Road" "Pune" "MH" "411001" "standard".

Definition sample_ordered_db : Db :=
  mkDb [mkProduct 1 "Olive oil" 500 6 active] [] [] 1 [sample_order] 2
       [mkOrderItem 1 1 "Olive oil" 500 4 2000].

(** ** POST /orders on arbitrary JSON numbers

    [item.price] and [item.quantity] are not validated: the handler
    multiplies and adds whatever numbers the request carries, and the
    columns round what is written into them.  Below, a JSON number is an
    exact rational (the rounding error of binary floating point, of the
    order of 1e-16 relative, is not modelled), and the handler is embedded
    again with the conversions spelled out. *)

(** Rounding to the nearest integer, ties away from zero: what MySQL does
    when an exact number is stored into a column of smaller scale. *)
Definition round_half_away (x : Q) : Z :=
  if Qle_bool 0 x then Qfloor (x + (1 # 2)) else (- Qfloor (- x + (1 # 2)))%Z.

(** The value a DECIMAL(10,2) column keeps of a number, in hundredths. *)
Definition to_DECIMAL2 (x : Q) : Z := round_half_away (x * inject_Z 100).

(** The value an INT column keeps of a number. *)
Definition to_INT (x : Q) : Z := round_half_away x.

(** [parseFloat(x.toFixed(2))], in hundredths: [toFixed] takes the nearest
    multiple of 0.01 and the larger one on a tie. *)
Definition toFixed2_number (x : Q) : Z := Qfloor (x * inject_Z 100 + (1 # 2)).

(** An element of [req.body.items] with arbitrary numbers. *)
Record json_item := mkJsonItem {
  jitem_product : Z;
  jitem_name : string;
  jitem_price : Q;
  jitem_quantity : Q }.

(** An element of [orderItems] with the numbers as JavaScript holds them. *)
Record json_order_line := mkJsonLine {
  jl_product_id : Z;
  jl_product_name : string;
  jl_product_price : Q;
  jl_quantity : Q;
  jl_total_price : Q }.

Record json_order_request := mkJsonOrderRequest {
  jr_shippingAddress : shipping_address;
  jr_items : list json_item;
  jr_deliveryMethod : string }.

Record json_order_details := mkJsonOrderDetails {
  jd_orderId : string;
  jd_customerName : string;
  jd_customerEmail : option string;
  jd_shippingAddress : string;
  jd_items : list json_order_line;
  jd_totalAmount : string;
  jd_status : string;
  jd_shippingMethod : string;
  jd_phone : string }.

Record json_mail_options := mkJsonMail {
  jmail_to : list (option string);
  jmail_subject : string;
  jmail_html : json_order_details }.

Record json_environment := mkJsonEnv {
  jnow : Z;
  jrandom : Z;
  jADMIN_EMAIL : option string;
  jsendMail : json_mail_options -> option string }.

(** [sendOrderConfirmationEmail] on these order details. *)
Definition sendOrderConfirmationEmail_json (sendMail : json_mail_options -> option string)
    (orderDetails : json_order_details) (recipientEmail : list (option string)) : M bool :=
  let mailOptions :=
    mkJsonMail recipientEmail
               ("Order " ++
                (if String.eqb (jd_status orderDetails) "pending" then "Received" else "Updated")
                ++ " @ Olifera.in #" ++ jd_orderId orderDetails)
               orderDetails in
  match sendMail mailOptions with
  | Some _ => ret true
  | None => ret false
  end.

Definition validate_json_order (req : json_order_request) : list string :=
  notEmpty (firstName (jr_shippingAddress req)) "First name is required" ++
  notEmpty (lastName (jr_shippingAddress req)) "Last name is required" ++
  notEmpty (address (jr_shippingAddress req)) "Shipping address is required" ++
  notEmpty (city (jr_shippingAddress req)) "Shipping city is required" ++
  notEmpty (state (jr_shippingAddress req)) "Shipping state is required" ++
  notEmpty (zipCode (jr_shippingAddress req)) "Shipping zip code is required" ++
  notEmpty (phone (jr_shippingAddress req)) "Phone number is required" ++
  notEmpty (jr_deliveryMethod req) "Delivery method is required" ++
  (if is_empty (jr_items req) then ["Cart items cannot be empty"] else []).

(** The first loop of POST /orders, on numbers. *)
Definition collect_json_items (items : list json_item) : Q * list json_order_line :=
  fold_left
    (fun (acc : Q * list json_order_line) (it : json_item) =>
       let itemTotal := (jitem_price it * jitem_quantity it)%Q in
       ((fst acc + itemTotal)%Q,
        (snd acc ++ [mkJsonLine (jitem_product it) (jitem_name it) (jitem_price it)
                                (jitem_quantity it) itemTotal])%list))
    items (0%Q, []).

(** The row of [order_items] that the INSERT keeps of one element of
    [orderItems]: the DECIMAL(10,2) and INT columns round each value on its
    own. *)
Definition json_order_item_row (orderId : Z) (line : json_order_line) : order_item :=
  mkOrderItem orderId (jl_product_id line) (jl_product_name line)
              (to_DECIMAL2 (jl_product_price line))
              (to_INT (jl_quantity line))
              (to_DECIMAL2 (jl_total_price line)).

(** [UPDATE products SET stock = stock - ? WHERE id = ?] with a number for
    the quantity; [stock] is an INT column. *)
Definition decrement_stock_json (quantity : Q) (productId : Z) : M unit :=
  fun db =>
    (Ok tt,
     set_products
       (map (fun p => if p_id p =? productId
                      then mkProduct (p_id p) (p_name p) (p_price p)
                                     (to_INT (inject_Z (p_stock p) - quantity))
                                     (p_status p)
                      else p)
            (products db))
       db).

Definition persist_json_line (orderId : Z) (line : json_order_line) : M unit :=
  insert_order_item (json_order_item_row orderId line) ;;;
  decrement_stock_json (jl_quantity line) (jl_product_id line).

(** [router.post('/', authenticateToken, [...], ...)] on a request with
    arbitrary numbers. *)
Definition create_order_json (env : json_environment) (user : Z) (req : json_order_request)
  : Db -> response * Db :=
  try_catch
    (let errors := validate_json_order req in
     if negb (is_empty errors) then
       ret (mkResponse 400 (ValidationFailed "Validation failed" errors))
     else
       let (subtotal, orderItems) := collect_json_items (jr_items req) in
       let shippingCost := 0%Q in
       let taxAmount := 0%Q in
       let totalAmount := (subtotal + shippingCost + taxAmount)%Q in
       let orderNumber := generateOrderNumber (jnow env) (jrandom env) in
       let sa := jr_shippingAddress req in
       let orderInsertQuery :=
         insert_order orderNumber user pending
                      (to_DECIMAL2 subtotal) (to_DECIMAL2 shippingCost)
                      (to_DECIMAL2 taxAmount) (to_DECIMAL2 totalAmount)
                      (address sa) (city sa) (state sa) (zipCode sa)
                      (jr_deliveryMethod req) in
       results <- executeTransaction [orderInsertQuery] ;;
       match results with
       | [] => throw TypeError
       | orderId :: _ =>
           for_of orderItems (persist_json_line orderId) ;;;
           _sent <- sendOrderConfirmationEmail_json (jsendMail env)
                      (mkJsonOrderDetails orderNumber
                         (firstName sa ++ " " ++ lastName sa)
                         (email sa)
                         (address sa ++ ", " ++ city sa ++ ", " ++ state sa ++ " " ++ zipCode sa)
                         orderItems
                         (toFixed2 (toFixed2_number totalAmount))
                         "pending"
                         (jr_deliveryMethod req)
                         (phone sa))
                      [jADMIN_EMAIL env; email sa] ;;
           ret (mkResponse 201
                  (OrderCreated "Order created successfully" orderId orderNumber
                     (toFixed2_number totalAmount)))
       end)
    "Failed to create order".

(** A number that is a whole count of hundredths, and one that is an
    integer. *)
Definition whole_hundredths (x : Q) : Prop :=
  (x * inject_Z 100 == inject_Z (to_DECIMAL2 x))%Q.

Definition whole_number (x : Q) : Prop := (x == inject_Z (to_INT x))%Q.

(** The request as [create_order] reads it, each price in hundredths. *)
Definition item_of_json (it : json_item) : item :=
  mkItem (jitem_product it) (jitem_name it)
         (to_DECIMAL2 (jitem_price it)) (to_INT (jitem_quantity it)).

Definition request_of_json (req : json_order_request) : order_request :=
  mkOrderRequest (jr_shippingAddress req) (map item_of_json (jr_items req))
                 (jr_deliveryMethod req).

(** A transport that always rejects, and the sample environment with it. *)
Definition sample_json_env : json_environment :=
  mkJsonEnv 1700000000000 7 (Some "admin@example.com") (fun _ => None).

(** A request for [quantity] units at a client-supplied [price]. *)
Definition sample_json_request (price quantity : Q) : json_order_request :=
  mkJsonOrderRequest sample_address [mkJsonItem 1 "Olive oil" price quantity] "standard".

(** * Properties *)

Unset Implicit Arguments.

Lemma db_eta (db : Db) :
  mkDb (products db) (cart_sessions db) (cart_items db) (next_cart_item_id db)
       (orders db) (next_order_id db) (order_items db) = db.
Proof. destruct db; reflexivity. Qed.

Lemma existsb_snoc (A : Type) (f : A -> bool) (l : list A) (x : A) :
  existsb f (l ++ [x]) = existsb f l || f x.
Proof. rewrite existsb_app; simpl; now rewrite orb_false_r. Qed.

(** ** Order creation *)

Lemma collect_items_acc (its : list item) (sub : Z) (lines : list order_line) :
  fold_left
    (fun (acc : Z * list order_line) (it : item) =>
       let itemTotal := item_price it * item_quantity it in
       (fst acc + itemTotal,
        (snd acc ++ [mkOrderLine (item_product it) (item_name it) (item_price it)
                                 (item_quantity it) itemTotal])%list))
    its (sub, lines)
  = (sub + subtotal_of its, (lines ++ map line_of_item its)%list).
Proof.
  revert sub lines.
  induction its as [|it its IH]; intros sub lines; simpl.
  - now rewrite Z.add_0_r, app_nil_r.
  - rewrite IH. simpl. f_equal.
    + lia.
    + now rewrite <- app_assoc.
Qed.

Lemma collect_items_eq (its : list item) :
  collect_items its = (subtotal_of its, map line_of_item its).
Proof. unfold collect_items. now rewrite collect_items_acc. Qed.

(** The second loop of POST /orders stops at the first line whose product
    is missing; every line before it has been written and its stock
    decremented. *)
Lemma persist_lines_run (orderId : Z) (lines : list order_line) :
  forall db res db',
    existsb (fun o => o_id o =? orderId) (orders db) = true ->
    for_of lines (persist_line orderId) db = (res, db') ->
    exists done rest,
      lines = (done ++ rest)%list /\
      db' = mkDb (decrement_all done (products db)) (cart_sessions db) (cart_items db)
                 (next_cart_item_id db) (orders db) (next_order_id db)
                 (order_items db ++ map (order_item_row orderId) done) /\
      ((res = Ok tt /\ rest = []) \/
       (res = Throw ER_NO_REFERENCED_ROW /\
        exists l rest', rest = l :: rest' /\
                        product_exists (product_id l) db' = false)).
Proof.
  induction lines as [|l lines IH]; intros db res db' Hord Hrun.
  - simpl in Hrun. unfold ret in Hrun. injection Hrun as <- <-.
    exists [], []. simpl. rewrite app_nil_r, db_eta. auto.
  - simpl in Hrun. unfold bind, persist_line, bind, insert_order_item in Hrun.
    simpl oi_order_id in Hrun. rewrite Hord in Hrun. simpl andb in Hrun.
    destruct (product_exists (product_id l) db) eqn:Hp.
    + unfold decrement_stock in Hrun. cbv beta iota in Hrun.
      apply IH in Hrun; [|exact Hord].
      destruct Hrun as (done & rest & -> & -> & Hres).
      exists (l :: done), rest. simpl. rewrite <- app_assoc. simpl.
      split; [reflexivity|]. split; [reflexivity|]. exact Hres.
    + injection Hrun as <- <-.
      exists [], (l :: lines). simpl. rewrite app_nil_r, db_eta.
      split; [reflexivity|]. split; [reflexivity|].
      right. split; [reflexivity|]. exists l, lines. split; [reflexivity|exact Hp].
Qed.

Lemma create_order_invalid env user req db :
  validate_order req <> [] ->
  create_order env user req db =
    (mkResponse 400 (ValidationFailed "Validation failed" (validate_order req)), db).
Proof.
  intros Hv. unfold create_order, try_catch.
  destruct (validate_order req); [congruence|]. reflexivity.
Qed.

Lemma create_order_duplicate env user req db :
  validate_order req = [] ->
  existsb (fun o => String.eqb (o_order_number o)
                                (generateOrderNumber (now env) (random env)))
          (orders db) = true ->
  create_order env user req db = (mkResponse 500 (Message "Failed to create order"), db).
Proof.
  intros Hv Hdup. unfold create_order, try_catch. rewrite Hv.
  rewrite collect_items_eq.
  cbn [negb is_empty]. unfold executeTransaction, insert_order, bind; cbn [run_queries]. unfold bind.
  rewrite Hdup. reflexivity.
Qed.

Lemma create_order_run env user req db :
  validate_order req = [] ->
  existsb (fun o => String.eqb (o_order_number o)
                                (generateOrderNumber (now env) (random env)))
          (orders db) = false ->
  exists done rest,
    map line_of_item (items req) = (done ++ rest)%list /\
    create_order env user req db =
      (match rest with
       | [] => mkResponse 201
                 (OrderCreated "Order created successfully" (next_order_id db)
                    (generateOrderNumber (now env) (random env))
                    (subtotal_of (items req) + 0 + 0))
       | _ :: _ => mkResponse 500 (Message "Failed to create order")
       end,
       mkDb (decrement_all done (products db)) (cart_sessions db) (cart_items db)
            (next_cart_item_id db)
            (orders db ++
               [mkOrder (next_order_id db)
                        (generateOrderNumber (now env) (random env)) user pending
                        (subtotal_of (items req)) 0 0 (subtotal_of (items req) + 0 + 0)
                        (address (shippingAddress req)) (city (shippingAddress req))
                        (state (shippingAddress req)) (zipCode (shippingAddress req))
                        (deliveryMethod req)])
            (next_order_id db + 1)
            (order_items db ++ map (order_item_row (next_order_id db)) done)) /\
    (rest = [] \/
     exists l rest', rest = l :: rest' /\
       existsb (fun p => p_id p =? product_id l) (decrement_all done (products db)) = false).
Proof.
  intros Hv Hfresh. unfold create_order, try_catch. rewrite Hv.
  rewrite collect_items_eq.
  cbn [negb is_empty]. unfold executeTransaction, insert_order, bind; cbn [run_queries]. unfold bind.
  rewrite Hfresh. unfold ret at 1. unfold ret at 1.
  match goal with
  | |- context [for_of ?ls ?f ?d] => destruct (for_of ls f d) as [res db'] eqn:Hrun
  end.
  apply persist_lines_run in Hrun.
  2:{ simpl orders. rewrite existsb_snoc. simpl. rewrite Z.eqb_refl. apply orb_true_r. }
  simpl in Hrun. destruct Hrun as (done & rest & Hsplit & -> & Hres).
  exists done, rest. split; [exact Hsplit|].
  destruct Hres as [[-> ->] | [-> (l & rest' & -> & Hmiss)]].
  - split; [|now left].
    unfold sendOrderConfirmationEmail. destruct (sendMail env _); reflexivity.
  - split; [reflexivity|]. right. exists l, rest'. split; [reflexivity|exact Hmiss].
Qed.

Lemma existsb_stock_minus (pid quantity k : Z) (ps : list product) :
  existsb (fun p => p_id p =? pid) (stock_minus quantity k ps)
  = existsb (fun p => p_id p =? pid) ps.
Proof.
  induction ps as [|p ps IH]; simpl; [reflexivity|].
  rewrite IH. destruct (p_id p =? k); reflexivity.
Qed.



(** Every outcome of POST /orders is one of: rejected by validation, failed
    without any write, or the run described by [create_order_run]. *)
Lemma create_order_success_inv env user req db :
  status (fst (create_order env user req db)) = 201 ->
  create_order env user req db =
    (mkResponse 201
       (OrderCreated "Order created successfully" (next_order_id db)
          (generateOrderNumber (now env) (random env))
          (subtotal_of (items req) + 0 + 0)),
     mkDb (decrement_all (map line_of_item (items req)) (products db))
          (cart_sessions db) (cart_items db) (next_cart_item_id db)
          (orders db ++
             [mkOrder (next_order_id db)
                      (generateOrderNumber (now env) (random env)) user pending
                      (subtotal_of (items req)) 0 0 (subtotal_of (items req) + 0 + 0)
                      (address (shippingAddress req)) (city (shippingAddress req))
                      (state (shippingAddress req)) (zipCode (shippingAddress req))
                      (deliveryMethod req)])
          (next_order_id db + 1)
          (order_items db ++
             map (order_item_row (next_order_id db)) (map line_of_item (items req)))).
Proof.
  intros Hok.
  destruct (validate_order req) as [|e es] eqn:Hv.
  2:{ rewrite create_order_invalid in Hok by (rewrite Hv; discriminate).
      simpl in Hok. discriminate. }
  destruct (existsb (fun o => String.eqb (o_order_number o)
                                (generateOrderNumber (now env) (random env)))
                    (orders db)) eqn:Hfresh.
  { rewrite create_order_duplicate in Hok by assumption. simpl in Hok. discriminate. }
  destruct (create_order_run env user req db Hv Hfresh)
    as (done & rest & Hsplit & Hrun & _).
  rewrite Hrun in Hok |- *. destruct rest as [|l rest]; [|simpl in Hok; discriminate].
  rewrite app_nil_r in Hsplit. subst done. reflexivity.
Qed.

(** On requests whose prices are whole hundredths and whose quantities are
    integers: for every order created by POST /orders (response 201), the
    persisted header satisfies
    [total_amount = subtotal + shipping_cost + tax_amount], its subtotal is
    the sum over the submitted items of [price * quantity], one order line is
    persisted per submitted item, and the [total_price] of each persisted
    line is its unit price times its quantity. *)
Lemma create_order_integrity_hundredths env user req db :
  status (fst (create_order env user req db)) = 201 ->
  exists o new_lines,
    orders (snd (create_order env user req db)) = (orders db ++ [o])%list /\
    order_items (snd (create_order env user req db)) = (order_items db ++ new_lines)%list /\
    json (fst (create_order env user req db))
      = OrderCreated "Order created successfully" (o_id o) (o_order_number o)
                     (o_total_amount o) /\
    o_total_amount o = o_subtotal o + o_shipping_cost o + o_tax_amount o /\
    o_subtotal o = subtotal_of (items req) /\
    new_lines =
      map (fun it => mkOrderItem (o_id o) (item_product it) (item_name it)
                                 (item_price it) (item_quantity it)
                                 (item_price it * item_quantity it))
          (items req) /\
    Forall (fun l => oi_total_price l = oi_product_price l * oi_quantity l) new_lines.
Proof.
  intros Hok. rewrite (create_order_success_inv env user req db Hok). simpl.
  eexists. eexists.
  split; [reflexivity|]. split; [reflexivity|]. simpl.
  split; [reflexivity|]. split; [reflexivity|]. split; [reflexivity|].
  split.
  - rewrite map_map. reflexivity.
  - rewrite map_map. apply Forall_forall. intros l Hl.
    apply in_map_iff in Hl. destruct Hl as (it & <- & _). reflexivity.
Qed.

(** C10. For every order created by POST /orders, whatever delivery method
    was submitted, the persisted [shipping_cost] and [tax_amount] are 0 and
    [total_amount] equals [subtotal]; the submitted method is only stored as
    the order's [shipping_method]. *)
Theorem created_order_no_shipping_no_tax env user req db :
  status (fst (create_order env user req db)) = 201 ->
  exists o,
    orders (snd (create_order env user req db)) = (orders db ++ [o])%list /\
    o_shipping_method o = deliveryMethod req /\
    o_shipping_cost o = 0 /\
    o_tax_amount o = 0 /\
    o_total_amount o = o_subtotal o /\
    json (fst (create_order env user req db))
      = OrderCreated "Order created successfully" (o_id o) (o_order_number o)
                     (o_subtotal o).
Proof.
  intros Hok. rewrite (create_order_success_inv env user req db Hok). simpl.
  eexists. split; [reflexivity|]. simpl.
  repeat split; try reflexivity.
  - lia.
  - do 2 f_equal. lia.
Qed.

Lemma created_order_no_shipping_no_tax_witness :
  status (fst (create_order sample_env 7 (sample_request 4 "overnight") sample_db)) = 201 /\
  exists o,
    orders (snd (create_order sample_env 7 (sample_request 4 "overnight") sample_db))
      = ([] ++ [o])%list /\
    o_shipping_method o = "overnight" /\
    o_shipping_cost o = 0 /\
    o_tax_amount o = 0 /\
    o_total_amount o = o_subtotal o /\
    json (fst (create_order sample_env 7 (sample_request 4 "overnight") sample_db))
      = OrderCreated "Order created successfully" (o_id o) (o_order_number o)
                     (o_subtotal o).
Proof.
  split; [reflexivity|].
  exact (created_order_no_shipping_no_tax sample_env 7 (sample_request 4 "overnight")
           sample_db eq_refl).
Defined.





(** C8, as the code has it.  POST /orders never writes to [cart_sessions]
    or [cart_items]: whatever the request and whatever the outcome, the
    caller's cart session and its lines are the ones it had before. *)
Theorem create_order_leaves_cart env user req db :
  cart_sessions (snd (create_order env user req db)) = cart_sessions db /\
  cart_items (snd (create_order env user req db)) = cart_items db.
Proof.
  destruct (validate_order req) as [|e es] eqn:Hv.
  2:{ rewrite create_order_invalid by (rewrite Hv; discriminate). now split. }
  destruct (existsb (fun o => String.eqb (o_order_number o)
                                (generateOrderNumber (now env) (random env)))
                    (orders db)) eqn:Hfresh.
  { rewrite create_order_duplicate by assumption. now split. }
  destruct (create_order_run env user req db Hv Hfresh)
    as (done & rest & _ & -> & _).
  now split.
Qed.

(** C8 fails as stated: user 7 checks out the 4 units held in the cart
    session "s-7"; the order is created (201) and the session and its line
    are still there. *)
Lemma checkout_keeps_cart_session :
  status (fst (create_order sample_env 7 (sample_request 4 "standard") sample_cart_db)) = 201 /\
  In (mkCartSession "s-7" (Some 7))
     (cart_sessions (snd (create_order sample_env 7 (sample_request 4 "standard")
                            sample_cart_db))) /\
  In (mkCartItem 1 "s-7" 1 4)
     (cart_items (snd (create_order sample_env 7 (sample_request 4 "standard")
                         sample_cart_db))).
Proof.
  split; [reflexivity|]. split; left; reflexivity.
Qed.

(** C1 fails on the code.  (a) With one unit in stock, an order for two
    units is accepted with 201 and the stock becomes -1.  (b) When the second
    submitted item names a product that does not exist, the response is 500
    but the order header, the first order line and the first stock decrement
    have been written. *)
Theorem create_order_not_atomic :
  (let db := mkDb [mkProduct 1 "Olive oil" 500 1 active] [] [] 1 [] 1 [] in
   let out := create_order sample_env 7 (sample_request 2 "standard") db in
   status (fst out) = 201 /\
   products (snd out) = [mkProduct 1 "Olive oil" 500 (-1) active]) /\
  (let req := mkOrderRequest sample_address
                [mkItem 1 "Olive oil" 500 4; mkItem 2 "Ghost" 100 1] "standard" in
   let out := create_order sample_env 7 req sample_db in
   status (fst out) = 500 /\
   map o_id (orders (snd out)) = [1] /\
   order_items (snd out) = [mkOrderItem 1 1 "Olive oil" 500 4 2000] /\
   products (snd out) = [mkProduct 1 "Olive oil" 500 6 active]).
Proof.
  split; cbv zeta; repeat split; reflexivity.
Qed.

(** ** Order cancellation *)

Lemma increment_all_run (lines : list order_item) :
  forall db,
    for_of lines (fun it => increment_stock (oi_quantity it) (oi_product_id it)) db
    = (Ok tt,
       set_products
         (fold_left (fun ps it => stock_plus (oi_quantity it) (oi_product_id it) ps)
                    lines (products db))
         db).
Proof.
  induction lines as [|l lines IH]; intros db; simpl.
  - unfold ret, set_products. now rewrite db_eta.
  - unfold bind, increment_stock. rewrite IH. reflexivity.
Qed.

Lemma restock_fold (lines : list order_item) :
  forall ps,
    fold_left (fun ps it => stock_plus (oi_quantity it) (oi_product_id it) ps) lines ps
    = map (restocked lines) ps.
Proof.
  induction lines as [|l lines IH]; intros ps; simpl.
  - rewrite <- (map_id ps) at 1. apply map_ext. intros [i n pr st a].
    unfold restocked. simpl. now rewrite Z.add_0_r.
  - rewrite IH. unfold stock_plus. rewrite map_map. apply map_ext.
    intros [i n pr st a]. unfold restocked. simpl.
    rewrite (Z.eqb_sym (oi_product_id l) i).
    destruct (i =? oi_product_id l); simpl; f_equal; lia.
Qed.

(** C3. For an order of the caller: when its status is [delivered] or
    [cancelled] the request fails with 400 and the database is unchanged;
    when it is [pending], [processing] or [shipped] the request succeeds, the
    order's status becomes [cancelled], and the stock of every product is
    its former stock plus the quantities of the order's lines for that
    product, each line counted exactly once; nothing else changes. *)
Theorem cancel_order_terminality user orderId db o others :
  filter (fun o => (o_id o =? orderId) && (o_user_id o =? user)) (orders db) = o :: others ->
  match o_status o with
  | cancelled =>
      cancel_order user orderId db
      = (mkResponse 400 (Message "Order is already cancelled"), db)
  | delivered =>
      cancel_order user orderId db
      = (mkResponse 400 (Message "Cannot cancel delivered order"), db)
  | pending | processing | shipped =>
      cancel_order user orderId db
      = (mkResponse 200 (Message "Order cancelled successfully"),
         mkDb (map (restocked (lines_of_order orderId db)) (products db))
              (cart_sessions db) (cart_items db) (next_cart_item_id db)
              (map (fun o' => if o_id o' =? orderId then with_status cancelled o' else o')
                   (orders db))
              (next_order_id db) (order_items db))
  end.
Proof.
  intros Hfound. unfold cancel_order, try_catch, bind, select_order_of_user.
  rewrite Hfound.
  destruct (o_status o); try reflexivity;
    unfold set_order_cancelled, select_order_items;
    rewrite increment_all_run; simpl; rewrite restock_fold; reflexivity.
Qed.

Lemma cancel_order_terminality_witness :
  cancel_order 7 1
    (snd (create_order sample_env 7 (sample_request 4 "standard") sample_db))
  = (mkResponse 200 (Message "Order cancelled successfully"),
     mkDb [sample_product] [] [] 1
          [mkOrder 1 "ORD-1700000000000-007" 7 cancelled 2000 0 0 2000
                   "1 Mill Road" "Pune" "MH" "411001" "standard"]
          2 [mkOrderItem 1 1 "Olive oil" 500 4 2000]).
Proof.
  exact (cancel_order_terminality 7 1
           (snd (create_order sample_env 7 (sample_request 4 "standard") sample_db))
           (mkOrder 1 "ORD-1700000000000-007" 7 pending 2000 0 0 2000
                    "1 Mill Road" "Pune" "MH" "411001" "standard")
           [] eq_refl).
Defined.

(** ** Cart *)

Lemma filter_andb (A : Type) (f g : A -> bool) (l : list A) :
  filter (fun x => f x && g x) l = filter g (filter f l).
Proof.
  induction l as [|x l IH]; simpl; [reflexivity|].
  destruct (f x); simpl; [destruct (g x)|]; now rewrite IH.
Qed.

Lemma filter_none (A : Type) (f : A -> bool) (l : list A) :
  existsb f l = false -> filter f l = [].
Proof.
  induction l as [|x l IH]; simpl; [reflexivity|].
  destruct (f x); simpl; [discriminate|exact IH].
Qed.

Lemma filter_negb_all (A : Type) (f : A -> bool) (l : list A) :
  existsb f l = false -> filter (fun x => negb (f x)) l = l.
Proof.
  induction l as [|x l IH]; simpl; [reflexivity|].
  destruct (f x); simpl; [discriminate|]. intros H. now rewrite IH.
Qed.

Lemma existsb_andb_l (A : Type) (f g : A -> bool) (l : list A) :
  existsb f l = false -> existsb (fun x => f x && g x) l = false.
Proof.
  induction l as [|x l IH]; simpl; [reflexivity|].
  destruct (f x); simpl; [discriminate|exact IH].
Qed.

Lemma existsb_of_filter (A : Type) (f : A -> bool) (l : list A) (x : A) (rest : list A) :
  filter f l = x :: rest -> existsb f l = true.
Proof.
  intros H. destruct (existsb f l) eqn:E; [reflexivity|].
  rewrite (filter_none _ f l E) in H. discriminate.
Qed.

Lemma active_product_found (P : Z) (p : product) (ps : list product) :
  filter (fun x => p_id x =? P) ps = [p] ->
  p_status p = active ->
  filter (fun x => (p_id x =? P) &&
                   match p_status x with active => true | inactive => false end) ps
  = [p].
Proof.
  intros Hp Ha. rewrite filter_andb, Hp. simpl. now rewrite Ha.
Qed.

(** One anonymous add that passes the per-request checks: a new session is
    inserted and the line is inserted into it. *)
Lemma guest_add_run db P q uuid p :
  1 <= P -> 1 <= q <= p_stock p ->
  filter (fun x => p_id x =? P) (products db) = [p] ->
  p_status p = active ->
  unused_session uuid db ->
  cart_add None P q uuid db
  = (item_added (Some uuid),
     mkDb (products db)
          (cart_sessions db ++ [mkCartSession uuid None])
          (cart_items db ++ [mkCartItem (next_cart_item_id db) uuid P q])
          (next_cart_item_id db + 1)
          (orders db) (next_order_id db) (order_items db)).
Proof.
  intros HP Hq Hp Hact [Hs Hi].
  unfold cart_add, try_catch, validate_add.
  destruct (Z.leb_spec 1 P); [|lia]. destruct (Z.leb_spec 1 q); [|lia].
  cbn [app is_empty negb].
  unfold bind at 1. unfold select_active_product.
  rewrite (active_product_found P p _ Hp Hact).
  destruct (Z.ltb_spec (p_stock p) q); [lia|].
  unfold getOrCreateCartSession, bind, insert_cart_session, select_cart_line, ret.
  rewrite Hs. simpl.
  rewrite (filter_none _ _ _ (existsb_andb_l _ _ (fun c => ci_product_id c =? P) _ Hi)).
  unfold insert_cart_item, product_exists. simpl.
  rewrite (existsb_of_filter _ _ _ _ _ Hp). simpl.
  rewrite (existsb_andb_l _ _ (fun c => ci_product_id c =? P) _ Hi).
  reflexivity.
Qed.

(** Whenever an anonymous add succeeds, the session it returns is the
    freshly generated one, which did not exist before and has just been
    inserted as an unowned session. *)
Lemma guest_add_success_inv db P q uuid :
  status (fst (cart_add None P q uuid db)) = 200 ->
  (exists msg, json (fst (cart_add None P q uuid db)) = ItemAdded msg (Some uuid)) /\
  existsb (fun s => String.eqb (cs_session_id s) uuid) (cart_sessions db) = false /\
  cart_sessions (snd (cart_add None P q uuid db))
  = (cart_sessions db ++ [mkCartSession uuid None])%list.
Proof.
  destruct (cart_add None P q uuid db) as [r db'] eqn:E. simpl. intros Hok.
  unfold cart_add, try_catch in E.
  destruct (negb (is_empty (validate_add P q)));
    [injection E as <- <-; discriminate|].
  unfold bind at 1 in E. unfold select_active_product in E.
  destruct (filter _ (products db)) as [|product others];
    [injection E as <- <-; discriminate|].
  destruct (p_stock product <? q); [injection E as <- <-; discriminate|].
  unfold getOrCreateCartSession, bind, insert_cart_session, select_cart_line, ret in E.
  destruct (existsb _ (cart_sessions db)) eqn:Hs;
    [injection E as <- <-; discriminate|].
  unfold set_cart_sessions in E. cbn [cart_items] in E.
  destruct (filter _ (cart_items db)) as [|existing more].
  - unfold insert_cart_item, product_exists in E. cbn [products cart_items] in E.
    destruct (negb (existsb _ (products db)));
      [injection E as <- <-; discriminate|].
    destruct (existsb _ (cart_items db)); injection E as <- <-; [discriminate|].
    simpl. split; [eexists; reflexivity|]. split; reflexivity.
  - destruct (ci_quantity existing + q >? p_stock product);
      injection E as <- <-; [discriminate|].
    simpl. split; [eexists; reflexivity|]. split; reflexivity.
Qed.

(** C9. An anonymous POST /cart/add takes no session token.  Each call that
    succeeds returns the freshly generated session, which did not exist
    before the call.  Two successive anonymous adds of the same product, each
    within the stock on its own, both succeed, land in two distinct new
    sessions with one line each, and the second is not checked against the
    quantity added by the first (so [q1 + q2] may exceed the stock). *)
Theorem guest_add_always_new_session db P q1 q2 uuid1 uuid2 p :
  1 <= P -> 1 <= q1 <= p_stock p -> 1 <= q2 <= p_stock p ->
  filter (fun x => p_id x =? P) (products db) = [p] ->
  p_status p = active ->
  unused_session uuid1 db -> unused_session uuid2 db -> uuid1 <> uuid2 ->
  let db1 :=
    mkDb (products db)
         (cart_sessions db ++ [mkCartSession uuid1 None])
         (cart_items db ++ [mkCartItem (next_cart_item_id db) uuid1 P q1])
         (next_cart_item_id db + 1)
         (orders db) (next_order_id db) (order_items db) in
  let db2 :=
    mkDb (products db)
         (cart_sessions db ++ [mkCartSession uuid1 None; mkCartSession uuid2 None])
         (cart_items db ++ [mkCartItem (next_cart_item_id db) uuid1 P q1;
                            mkCartItem (next_cart_item_id db + 1) uuid2 P q2])
         (next_cart_item_id db + 1 + 1)
         (orders db) (next_order_id db) (order_items db) in
  cart_add None P q1 uuid1 db = (item_added (Some uuid1), db1) /\
  cart_add None P q2 uuid2 db1 = (item_added (Some uuid2), db2) /\
  (forall db0 P0 q0 uuid0,
      status (fst (cart_add None P0 q0 uuid0 db0)) = 200 ->
      (exists msg, json (fst (cart_add None P0 q0 uuid0 db0)) = ItemAdded msg (Some uuid0)) /\
      existsb (fun s => String.eqb (cs_session_id s) uuid0) (cart_sessions db0) = false /\
      cart_sessions (snd (cart_add None P0 q0 uuid0 db0))
      = (cart_sessions db0 ++ [mkCartSession uuid0 None])%list).
Proof.
  intros HP Hq1 Hq2 Hp Hact Hu1 Hu2 Hne db1 db2.
  split; [|split].
  - now apply (guest_add_run db P q1 uuid1 p).
  - rewrite (guest_add_run db1 P q2 uuid2 p HP Hq2 Hp Hact).
    + unfold db1, db2. simpl. rewrite <- !app_assoc. reflexivity.
    + destruct Hu2 as [Hs Hi]. unfold db1, unused_session. simpl.
      rewrite !existsb_snoc, Hs, Hi. simpl.
      apply String.eqb_neq in Hne. now rewrite Hne.
  - apply guest_add_success_inv.
Qed.

Lemma guest_add_always_new_session_witness :
  cart_add None 1 8 "g-1" sample_db
  = (item_added (Some "g-1"),
     mkDb [sample_product] [mkCartSession "g-1" None] [mkCartItem 1 "g-1" 1 8] 2 [] 1 []) /\
  cart_add None 1 8 "g-2"
    (mkDb [sample_product] [mkCartSession "g-1" None] [mkCartItem 1 "g-1" 1 8] 2 [] 1 [])
  = (item_added (Some "g-2"),
     mkDb [sample_product] [mkCartSession "g-1" None; mkCartSession "g-2" None]
          [mkCartItem 1 "g-1" 1 8; mkCartItem 2 "g-2" 1 8] 3 [] 1 []).
Proof.
  assert (H110 : 1 <= 1) by lia.
  assert (Hq : 1 <= 8 <= p_stock sample_product) by (simpl; lia).
  assert (Hne : "g-1" <> "g-2") by discriminate.
  pose proof (guest_add_always_new_session sample_db 1 8 8 "g-1" "g-2" sample_product
                H110 Hq Hq eq_refl eq_refl (conj eq_refl eq_refl) (conj eq_refl eq_refl)
                Hne) as H.
  cbv zeta in H. destruct H as (H1 & H2 & _). split; [exact H1|exact H2].
Defined.

(** An anonymous caller is never refused: the ownership check of
    PUT /update/:itemId and DELETE /remove/:itemId is skipped when there is no
    authenticated user. *)
Lemma anonymous_never_forbidden db itemId q :
  status (fst (cart_remove None itemId db)) <> 403 /\
  status (fst (cart_update None itemId q db)) <> 403.
Proof.
  split.
  - unfold cart_remove, try_catch, bind, select_cart_item.
    destruct (filter _ (cart_items db)); simpl; discriminate.
  - unfold cart_update, try_catch.
    destruct (negb (0 <=? q)); [simpl; discriminate|].
    unfold bind, select_cart_item_with_stock.
    destruct (flat_map _ _) as [|[cartItem stock] more]; [simpl; discriminate|].
    simpl. destruct (q =? 0); [simpl; discriminate|].
    destruct (q >? stock); simpl; discriminate.
Qed.

(** C6 fails on the code.  The cart line 1 belongs to the session "s-7" of
    user 7.  Another authenticated user (8) is refused with 403, but a caller
    that is not authenticated, and presents no session token at all, deletes
    the line through DELETE /remove/1 and overwrites its quantity through
    PUT /update/1. *)
Theorem anonymous_caller_mutates_foreign_line :
  cart_remove (Some 8) 1 sample_cart_db
  = (mkResponse 403 (Message "Access denied"), sample_cart_db) /\
  cart_remove None 1 sample_cart_db
  = (mkResponse 200 (Message "Item removed from cart"),
     mkDb [sample_product] [mkCartSession "s-7" (Some 7)] [] 2 [] 1 []) /\
  cart_update None 1 9 sample_cart_db
  = (mkResponse 200 (Message "Cart updated successfully"),
     mkDb [sample_product] [mkCartSession "s-7" (Some 7)] [mkCartItem 1 "s-7" 1 9] 2 [] 1 []).
Proof.
  repeat split; reflexivity.
Qed.

Lemma filter_snoc (A : Type) (f : A -> bool) (l : list A) (x : A) :
  filter f (l ++ [x]) = (filter f l ++ if f x then [x] else [])%list.
Proof. rewrite filter_app. reflexivity. Qed.

Lemma no_such_id (n : Z) (old : list cart_item) :
  Forall (fun c => ci_id c < n) old ->
  existsb (fun c => ci_id c =? n) old = false.
Proof.
  induction 1 as [|c old Hc _ IH]; simpl; [reflexivity|].
  rewrite IH. destruct (Z.eqb_spec (ci_id c) n); [lia|reflexivity].
Qed.

Lemma update_misses (n : Z) (g : cart_item -> cart_item) (old : list cart_item) :
  Forall (fun c => ci_id c < n) old ->
  map (fun c => if ci_id c =? n then g c else c) old = old.
Proof.
  induction 1 as [|c old Hc _ IH]; simpl; [reflexivity|].
  rewrite IH. destruct (Z.eqb_spec (ci_id c) n); [lia|reflexivity].
Qed.

Lemma filter_finds (A : Type) (f : A -> bool) (l : list A) (x : A) :
  In x l -> f x = true -> is_empty (filter f l) = false.
Proof.
  intros Hin Hf.
  assert (H : In x (filter f l)) by (apply filter_In; now split).
  destruct (filter f l); [contradiction|reflexivity].
Qed.

(** The user's resolved session is bound to the user in the resolved table,
    and it is the one every later request of the user resolves. *)
Lemma sessions_resolved_head uid uuid db :
  exists s more,
    filter (fun s => option_Z_eqb (cs_user_id s) uid) (sessions_resolved uid uuid db)
    = s :: more /\
    cs_session_id s = session_of_user uid uuid db.
Proof.
  unfold sessions_resolved, session_of_user, sessions_of.
  destruct (filter _ (cart_sessions db)) as [|s more] eqn:E.
  - rewrite filter_snoc, E. simpl. rewrite Z.eqb_refl. eexists _, _. split; reflexivity.
  - rewrite E. eexists _, _. split; reflexivity.
Qed.

Lemma cart_items_with_line db ss n sid P q :
  cart_items (with_line db ss n sid P q) = (cart_items db ++ [mkCartItem n sid P q])%list.
Proof. reflexivity. Qed.

Lemma products_with_line db ss n sid P q :
  products (with_line db ss n sid P q) = products db.
Proof. reflexivity. Qed.

Lemma cart_sessions_with_line db ss n sid P q :
  cart_sessions (with_line db ss n sid P q) = ss.
Proof. reflexivity. Qed.

Section OneCart.

(** The cart of an authenticated user [uid] around the line [n] that holds
    product [P] in the user's session [sid]; [db] is the database apart
    from that line and [ss] the session table. *)
Variables (db : Db) (uid P : Z) (p : product) (sid : string)
          (ss : list cart_session) (n : Z).

Hypothesis Huid : uid <> 0.
Hypothesis HP : 1 <= P.
Hypothesis Hp : filter (fun x => p_id x =? P) (products db) = [p].
Hypothesis Hact : p_status p = active.
Hypothesis Hids : Forall (fun c => ci_id c < n) (cart_items db).
Hypothesis Hnone :
  existsb (fun c => String.eqb (ci_session_id c) sid && (ci_product_id c =? P))
          (cart_items db) = false.
Hypothesis Hss :
  exists s more,
    filter (fun s => option_Z_eqb (cs_user_id s) uid) ss = s :: more /\
    cs_session_id s = sid.

Lemma owner_not_denied d :
  cart_sessions d = ss ->
  access_denied (Some uid) sid d = (Ok false, d).
Proof.
  intros Hd. unfold access_denied, bind, select_session_of_user, ret. rewrite Hd.
  destruct Hss as (s & more & Hf & Hs).
  assert (Hin : In s (filter (fun s => option_Z_eqb (cs_user_id s) uid) ss))
    by (rewrite Hf; now left).
  apply filter_In in Hin. destruct Hin as [Hin Hu].
  rewrite (filter_finds _ _ ss s Hin); [reflexivity|].
  rewrite Hs, String.eqb_refl, Hu. reflexivity.
Qed.

(** POST /add on a product already in the cart adds to the line. *)
Lemma add_to_existing_line q0 q uuid :
  1 <= q <= p_stock p -> q0 + q <= p_stock p ->
  cart_add (Some uid) P q uuid (with_line db ss n sid P q0)
  = (item_added None, with_line db ss n sid P (q0 + q)).
Proof.
  intros Hq Hsum. destruct Hss as (s & more & Hf & Hs).
  unfold cart_add, try_catch, validate_add.
  destruct (Z.leb_spec 1 P); [|lia]. destruct (Z.leb_spec 1 q); [|lia].
  cbn [app is_empty negb].
  unfold bind at 1. unfold select_active_product. rewrite products_with_line.
  rewrite (active_product_found P p _ Hp Hact).
  destruct (Z.ltb_spec (p_stock p) q); [lia|].
  unfold getOrCreateCartSession.
  destruct (Z.eqb_spec uid 0); [contradiction|].
  unfold bind, select_sessions_of_user, select_cart_line, ret.
  rewrite cart_sessions_with_line, Hf. cbn [map]. rewrite Hs.
  rewrite cart_items_with_line.
  rewrite filter_snoc, (filter_none _ _ _ Hnone).
  cbn [ci_session_id ci_product_id]. rewrite String.eqb_refl, Z.eqb_refl.
  cbn [andb app ci_quantity ci_id].
  destruct (Z.gtb_spec (q0 + q) (p_stock p)); [lia|].
  unfold update_cart_item_quantity, set_cart_items, with_line.
  cbn [cart_items products cart_sessions next_cart_item_id orders next_order_id order_items].
  rewrite map_app, (update_misses n _ _ Hids). cbn [map ci_id].
  rewrite Z.eqb_refl. reflexivity.
Qed.

(** PUT /update/:itemId with a positive quantity sets the quantity. *)
Lemma update_replaces_quantity q0 q :
  1 <= q <= p_stock p ->
  cart_update (Some uid) n q (with_line db ss n sid P q0)
  = (mkResponse 200 (Message "Cart updated successfully"),
     with_line db ss n sid P q).
Proof.
  intros Hq. unfold cart_update, try_catch.
  destruct (Z.leb_spec 0 q); [|lia]. cbn [negb].
  unfold bind at 1. unfold select_cart_item_with_stock.
  rewrite cart_items_with_line, products_with_line.
  rewrite filter_snoc, (filter_none _ _ _ (no_such_id n _ Hids)).
  cbn [ci_id]. rewrite Z.eqb_refl. cbn [app flat_map ci_product_id]. rewrite Hp.
  cbn [map app]. unfold bind at 1.
  rewrite owner_not_denied by reflexivity.
  destruct (Z.eqb_spec q 0); [lia|].
  destruct (Z.gtb_spec q (p_stock p)); [lia|].
  unfold bind, update_cart_item_quantity, ret, set_cart_items, with_line.
  cbn [cart_items products cart_sessions next_cart_item_id orders next_order_id order_items].
  rewrite map_app, (update_misses n _ _ Hids). cbn [map ci_id].
  rewrite Z.eqb_refl. reflexivity.
Qed.

(** PUT /update/:itemId with quantity 0 deletes the line and succeeds. *)
Lemma update_to_zero_deletes q0 :
  cart_update (Some uid) n 0 (with_line db ss n sid P q0)
  = (mkResponse 200 (Message "Item removed from cart"),
     mkDb (products db) ss (cart_items db) (n + 1)
          (orders db) (next_order_id db) (order_items db)).
Proof.
  unfold cart_update, try_catch. cbn [Z.leb Z.compare negb].
  unfold bind at 1. unfold select_cart_item_with_stock.
  rewrite cart_items_with_line, products_with_line.
  rewrite filter_snoc, (filter_none _ _ _ (no_such_id n _ Hids)).
  cbn [ci_id]. rewrite Z.eqb_refl. cbn [app flat_map ci_product_id]. rewrite Hp.
  cbn [map app]. unfold bind at 1.
  rewrite owner_not_denied by reflexivity.
  cbn [Z.eqb].
  unfold bind, delete_cart_item, ret, set_cart_items, with_line.
  cbn [cart_items products cart_sessions next_cart_item_id orders next_order_id order_items].
  rewrite filter_snoc, (filter_negb_all _ _ _ (no_such_id n _ Hids)).
  cbn [ci_id]. rewrite Z.eqb_refl. cbn [negb]. rewrite app_nil_r. reflexivity.
Qed.

End OneCart.

(** POST /add on a product the user's cart does not hold inserts the line
    into the user's session, creating the session when the user has none. *)
Lemma add_creates_line db uid P q uuid p :
  uid <> 0 -> 1 <= P -> 1 <= q <= p_stock p ->
  filter (fun x => p_id x =? P) (products db) = [p] ->
  p_status p = active ->
  (sessions_of uid db <> [] \/
   existsb (fun s => String.eqb (cs_session_id s) uuid) (cart_sessions db) = false) ->
  existsb (fun c => String.eqb (ci_session_id c) (session_of_user uid uuid db) &&
                    (ci_product_id c =? P)) (cart_items db) = false ->
  cart_add (Some uid) P q uuid db
  = (item_added None,
     with_line db (sessions_resolved uid uuid db) (next_cart_item_id db)
               (session_of_user uid uuid db) P q).
Proof.
  intros Huid HP Hq Hp Hact Hsess Hnone.
  unfold cart_add, try_catch, validate_add.
  destruct (Z.leb_spec 1 P); [|lia]. destruct (Z.leb_spec 1 q); [|lia].
  cbn [app is_empty negb].
  unfold bind at 1. unfold select_active_product.
  rewrite (active_product_found P p _ Hp Hact).
  destruct (Z.ltb_spec (p_stock p) q); [lia|].
  unfold getOrCreateCartSession.
  destruct (Z.eqb_spec uid 0); [contradiction|].
  unfold session_of_user, sessions_resolved, sessions_of in *.
  unfold bind, select_sessions_of_user, ret.
  destruct (filter _ (cart_sessions db)) as [|s more] eqn:Hf; cbn [map].
  - destruct Hsess as [Hsess|Hfree]; [congruence|].
    unfold insert_cart_session. rewrite Hfree.
    unfold select_cart_line, set_cart_sessions. cbn [cart_items].
    rewrite (filter_none _ _ _ Hnone).
    unfold insert_cart_item, product_exists. cbn [products cart_items].
    rewrite (existsb_of_filter _ _ _ _ _ Hp), Hnone. reflexivity.
  - unfold select_cart_line. rewrite (filter_none _ _ _ Hnone).
    unfold insert_cart_item, product_exists.
    rewrite (existsb_of_filter _ _ _ _ _ Hp), Hnone. reflexivity.
Qed.

(** *** The invariant: at most one line per (session, product) *)

Lemma one_line_snoc (old : list cart_item) n sid P q :
  one_line_per_product old ->
  existsb (fun c => String.eqb (ci_session_id c) sid && (ci_product_id c =? P)) old = false ->
  one_line_per_product (old ++ [mkCartItem n sid P q]).
Proof.
  unfold one_line_per_product. intros Hold Hnone. rewrite map_app.
  apply NoDup_app; [exact Hold|repeat constructor; simpl; tauto|].
  intros k Hk [<-|[]]. simpl in Hk.
  apply in_map_iff in Hk. destruct Hk as (c & Hkey & Hc).
  injection Hkey as Hs Hpid.
  assert (existsb (fun c => String.eqb (ci_session_id c) sid && (ci_product_id c =? P)) old
          = true) as Hex.
  { apply existsb_exists. exists c. split; [exact Hc|].
    rewrite Hs, Hpid, String.eqb_refl, Z.eqb_refl. reflexivity. }
  congruence.
Qed.

Lemma one_line_update (l : list cart_item) n q :
  one_line_per_product l ->
  one_line_per_product
    (map (fun c => if ci_id c =? n
                   then mkCartItem (ci_id c) (ci_session_id c) (ci_product_id c) q
                   else c) l).
Proof.
  unfold one_line_per_product. rewrite map_map. intros H.
  erewrite map_ext; [exact H|].
  intros c. simpl. destruct (ci_id c =? n); reflexivity.
Qed.

Lemma one_line_filter (f : cart_item -> bool) (l : list cart_item) :
  one_line_per_product l -> one_line_per_product (filter f l).
Proof.
  unfold one_line_per_product. induction l as [|c l IH]; simpl; [auto|].
  intros H. apply NoDup_cons_iff in H. destruct H as [Hc Hl].
  destruct (f c); simpl; [|now apply IH].
  constructor; [|now apply IH].
  intros Hin. apply Hc. apply in_map_iff in Hin. destruct Hin as (c' & Hk & Hc').
  apply filter_In in Hc'. apply in_map_iff. exists c'. tauto.
Qed.

Lemma getOrCreateCartSession_cart user uuid db :
  cart_items (snd (getOrCreateCartSession user uuid db)) = cart_items db.
Proof.
  unfold getOrCreateCartSession, bind, insert_cart_session, select_sessions_of_user, ret.
  destruct user as [uid|].
  - destruct (uid =? 0).
    + destruct (existsb _ (cart_sessions db)); reflexivity.
    + destruct (map _ _); [|reflexivity].
      destruct (existsb _ (cart_sessions db)); reflexivity.
  - destruct (existsb _ (cart_sessions db)); reflexivity.
Qed.

(** POST /add keeps the invariant, whoever calls it and whatever it answers. *)
Lemma cart_add_keeps_one_line user P q uuid db :
  one_line_per_product (cart_items db) ->
  one_line_per_product (cart_items (snd (cart_add user P q uuid db))).
Proof.
  intros Hinv. unfold cart_add, try_catch.
  destruct (negb (is_empty (validate_add P q))); [exact Hinv|].
  unfold bind at 1. unfold select_active_product.
  destruct (filter _ (products db)) as [|product others]; [exact Hinv|].
  destruct (p_stock product <? q); [exact Hinv|].
  unfold bind at 1.
  pose proof (getOrCreateCartSession_cart user uuid db) as Hcart.
  destruct (getOrCreateCartSession user uuid db) as [[sessionId|e] db1];
    simpl in Hcart; [|simpl; now rewrite Hcart].
  unfold bind, select_cart_line.
  destruct (filter _ (cart_items db1)) as [|existing more].
  - unfold insert_cart_item.
    destruct (negb (product_exists P db1)); [simpl; now rewrite Hcart|].
    destruct (existsb _ (cart_items db1)) eqn:Hnone; [simpl; now rewrite Hcart|].
    simpl. apply one_line_snoc; [now rewrite Hcart|exact Hnone].
  - destruct (ci_quantity existing + q >? p_stock product); [simpl; now rewrite Hcart|].
    simpl. apply one_line_update. now rewrite Hcart.
Qed.

(** PUT /update/:itemId keeps the invariant as well. *)
Lemma cart_update_keeps_one_line user itemId q db :
  one_line_per_product (cart_items db) ->
  one_line_per_product (cart_items (snd (cart_update user itemId q db))).
Proof.
  intros Hinv. unfold cart_update, try_catch.
  destruct (negb (0 <=? q)); [exact Hinv|].
  unfold bind at 1. unfold select_cart_item_with_stock.
  destruct (flat_map _ _) as [|[cartItem stock] more]; [exact Hinv|].
  unfold bind at 1.
  assert (Hden : exists b, access_denied user (ci_session_id cartItem) db = (Ok b, db)).
  { unfold access_denied, bind, select_session_of_user, ret.
    destruct user; eexists; reflexivity. }
  destruct Hden as [b ->].
  destruct b; [exact Hinv|].
  destruct (q =? 0).
  - simpl. now apply one_line_filter.
  - destruct (q >? stock); [exact Hinv|]. simpl. now apply one_line_update.
Qed.

(** C5. Within the cart session of an authenticated user whose cart does
    not hold product [P] yet ([P] active, at least 5 in stock): adding [P]
    with quantity 2 and then with quantity 3 yields exactly one line for
    [P], of quantity 5; updating that line to 1 yields quantity 1; updating
    it to 0 deletes the line, with a 200 answer.  Every response is a
    success, and at most one line per (session, product) holds in every
    state reached, as it does after any POST /add or PUT /update. *)
Theorem add_is_additive_update_replaces db uid P uuid p :
  uid <> 0 -> 1 <= P ->
  filter (fun x => p_id x =? P) (products db) = [p] ->
  p_status p = active ->
  5 <= p_stock p ->
  Forall (fun c => ci_id c < next_cart_item_id db) (cart_items db) ->
  one_line_per_product (cart_items db) ->
  (sessions_of uid db <> [] \/
   existsb (fun s => String.eqb (cs_session_id s) uuid) (cart_sessions db) = false) ->
  existsb (fun c => String.eqb (ci_session_id c) (session_of_user uid uuid db) &&
                    (ci_product_id c =? P)) (cart_items db) = false ->
  let sid := session_of_user uid uuid db in
  let ss := sessions_resolved uid uuid db in
  let n := next_cart_item_id db in
  let holding q := with_line db ss n sid P q in
  let emptied :=
    mkDb (products db) ss (cart_items db) (n + 1)
         (orders db) (next_order_id db) (order_items db) in
  let lines_for_P d :=
    filter (fun c => String.eqb (ci_session_id c) sid && (ci_product_id c =? P))
           (cart_items d) in
  cart_add (Some uid) P 2 uuid db = (item_added None, holding 2) /\
  (forall uuid', cart_add (Some uid) P 3 uuid' (holding 2) = (item_added None, holding 5)) /\
  cart_update (Some uid) n 1 (holding 5)
  = (mkResponse 200 (Message "Cart updated successfully"), holding 1) /\
  cart_update (Some uid) n 0 (holding 1)
  = (mkResponse 200 (Message "Item removed from cart"), emptied) /\
  (forall q, lines_for_P (holding q) = [mkCartItem n sid P q]) /\
  lines_for_P emptied = [] /\
  (forall q, one_line_per_product (cart_items (holding q))) /\
  (forall user P' q' uuid' d,
      one_line_per_product (cart_items d) ->
      one_line_per_product (cart_items (snd (cart_add user P' q' uuid' d)))) /\
  (forall user itemId q' d,
      one_line_per_product (cart_items d) ->
      one_line_per_product (cart_items (snd (cart_update user itemId q' d)))).
Proof.
  intros Huid HP Hp Hact Hstock Hids Hinv Hsess Hnone sid ss n holding emptied lines_for_P.
  pose proof (sessions_resolved_head uid uuid db) as Hss.
  fold ss sid in Hss. fold sid in Hnone.
  split; [|split; [|split; [|split; [|split; [|split; [|split; [|split]]]]]]].
  - apply (add_creates_line db uid P 2 uuid p); auto; lia.
  - intros uuid'.
    apply (add_to_existing_line db uid P p); auto; lia.
  - apply (update_replaces_quantity db uid P p); auto; lia.
  - apply (update_to_zero_deletes db uid P p); auto.
  - intros q. unfold lines_for_P, holding. rewrite cart_items_with_line, filter_snoc.
    rewrite (filter_none _ _ _ Hnone). simpl.
    now rewrite String.eqb_refl, Z.eqb_refl.
  - unfold lines_for_P, emptied. simpl. apply (filter_none _ _ _ Hnone).
  - intros q. unfold holding. rewrite cart_items_with_line.
    now apply one_line_snoc.
  - intros. now apply cart_add_keeps_one_line.
  - intros. now apply cart_update_keeps_one_line.
Qed.

Lemma add_is_additive_update_replaces_witness :
  let holding q := with_line sample_db [mkCartSession "s-7" (Some 7)] 1 "s-7" 1 q in
  cart_add (Some 7) 1 2 "s-7" sample_db = (item_added None, holding 2) /\
  cart_add (Some 7) 1 3 "s-8" (holding 2) = (item_added None, holding 5) /\
  cart_update (Some 7) 1 1 (holding 5)
  = (mkResponse 200 (Message "Cart updated successfully"), holding 1) /\
  cart_update (Some 7) 1 0 (holding 1)
  = (mkResponse 200 (Message "Item removed from cart"),
     mkDb [sample_product] [mkCartSession "s-7" (Some 7)] [] 2 [] 1 []).
Proof.
  assert (Huid : 7 <> 0) by lia.
  assert (HP : 1 <= 1) by lia.
  assert (Hstock : 5 <= p_stock sample_product) by (simpl; lia).
  pose proof (add_is_additive_update_replaces sample_db 7 1 "s-7" sample_product
                Huid HP eq_refl eq_refl Hstock (Forall_nil _) (NoDup_nil _)
                (or_intror eq_refl) eq_refl) as H.
  cbv zeta in H. destruct H as (H1 & H2 & H3 & H4 & _).
  cbv zeta. split; [exact H1|]. split; [exact (H2 "s-8")|]. split; [exact H3|exact H4].
Defined.

(** *** Merging a guest cart *)

Lemma existsb_filter_negb (A : Type) (f : A -> bool) (l : list A) :
  existsb f (filter (fun x => negb (f x)) l) = false.
Proof.
  induction l as [|x l IH]; simpl; [reflexivity|].
  destruct (f x) eqn:E; simpl; [exact IH|]. now rewrite E, IH.
Qed.

(** A merge that answers 200 has deleted the guest session and every line
    of it. *)
Lemma merge_success_clears user sid uuid db :
  status (fst (cart_merge user (Some sid) uuid db)) = 200 ->
  String.eqb sid "" = false /\
  existsb (fun s => String.eqb (cs_session_id s) sid)
          (cart_sessions (snd (cart_merge user (Some sid) uuid db))) = false /\
  existsb (fun c => String.eqb (ci_session_id c) sid)
          (cart_items (snd (cart_merge user (Some sid) uuid db))) = false.
Proof.
  destruct (cart_merge user (Some sid) uuid db) as [r db'] eqn:E. simpl. intros Hok.
  unfold cart_merge, try_catch in E. unfold falsy_string in E.
  destruct (String.eqb sid "") eqn:Hsid; [injection E as <- <-; discriminate|].
  split; [reflexivity|].
  unfold bind at 1 in E. unfold select_sessions_of_user in E.
  unfold bind at 1 in E.
  match type of E with
  | context [match ?m db with _ => _ end] => destruct (m db) as [[userSessionId|e] db1]
  end; [|injection E as <- <-; discriminate].
  unfold bind at 1 in E. unfold select_cart_items_of_session in E.
  unfold bind at 1 in E.
  destruct (for_of _ _ db1) as [[[]|e] db2]; [|injection E as <- <-; discriminate].
  unfold bind, delete_cart_session, delete_cart_items_of_session, ret in E.
  injection E as <- <-. simpl. split; apply existsb_filter_negb.
Qed.

(** Merging a guest session that has neither a session row nor lines left:
    nothing is written, except that a user without any session gets a new,
    empty one. *)
Lemma merge_of_deleted_session user sid uuid d :
  String.eqb sid "" = false ->
  existsb (fun s => String.eqb (cs_session_id s) sid) (cart_sessions d) = false ->
  existsb (fun c => String.eqb (ci_session_id c) sid) (cart_items d) = false ->
  (sessions_of user d <> [] \/
   existsb (fun s => String.eqb (cs_session_id s) uuid) (cart_sessions d) = false) ->
  cart_merge user (Some sid) uuid d
  = (mkResponse 200 (Message "Cart merged successfully"),
     set_cart_sessions
       (match sessions_of user d with
        | _ :: _ => cart_sessions d
        | [] => if String.eqb uuid sid then cart_sessions d
                else (cart_sessions d ++ [mkCartSession uuid (Some user)])%list
        end)
       d).
Proof.
  intros Hsid Hs Hi Hfree.
  unfold cart_merge, try_catch, falsy_string. rewrite Hsid.
  unfold sessions_of in *.
  unfold bind at 1. unfold select_sessions_of_user.
  destruct (filter _ (cart_sessions d)) as [|s more] eqn:Hf; cbn [map].
  - destruct Hfree as [Hfree|Hfree]; [congruence|].
    unfold bind, insert_cart_session, ret. rewrite Hfree.
    unfold select_cart_items_of_session, set_cart_sessions. cbn [cart_items].
    rewrite (filter_none _ _ _ Hi). cbn [for_of]. unfold ret.
    unfold delete_cart_session, delete_cart_items_of_session, set_cart_sessions,
      set_cart_items.
    cbn [cart_sessions cart_items products next_cart_item_id orders next_order_id
         order_items].
    rewrite filter_snoc, (filter_negb_all _ _ _ Hs), (filter_negb_all _ _ _ Hi).
    cbn [cs_session_id]. destruct (String.eqb uuid sid); cbn [negb];
      rewrite ?app_nil_r; reflexivity.
  - unfold bind, ret, select_cart_items_of_session.
    rewrite (filter_none _ _ _ Hi). cbn [for_of]. unfold ret.
    unfold delete_cart_session, delete_cart_items_of_session, set_cart_sessions,
      set_cart_items.
    cbn [cart_sessions cart_items products next_cart_item_id orders next_order_id
         order_items].
    rewrite (filter_negb_all _ _ _ Hs), (filter_negb_all _ _ _ Hi). reflexivity.
Qed.

(** C4. After a merge of guest session [sid] that answered 200, merging the
    same [sid] again answers 200 and leaves every cart line, hence every
    quantity of the user's cart, as the first merge left it; products and
    orders are untouched.  When the user still has a session the second call
    writes nothing at all; otherwise (the merged session was the user's own)
    its only write is a new empty session for the user. *)
Theorem merge_twice_same_as_once user sid uuid1 uuid2 db :
  status (fst (cart_merge user (Some sid) uuid1 db)) = 200 ->
  (sessions_of user (snd (cart_merge user (Some sid) uuid1 db)) <> [] \/
   existsb (fun s => String.eqb (cs_session_id s) uuid2)
           (cart_sessions (snd (cart_merge user (Some sid) uuid1 db))) = false) ->
  let db1 := snd (cart_merge user (Some sid) uuid1 db) in
  let out2 := cart_merge user (Some sid) uuid2 db1 in
  fst out2 = mkResponse 200 (Message "Cart merged successfully") /\
  cart_items (snd out2) = cart_items db1 /\
  next_cart_item_id (snd out2) = next_cart_item_id db1 /\
  products (snd out2) = products db1 /\
  orders (snd out2) = orders db1 /\
  order_items (snd out2) = order_items db1 /\
  (sessions_of user db1 <> [] -> snd out2 = db1) /\
  (sessions_of user db1 = [] ->
   cart_sessions (snd out2) = cart_sessions db1 \/
   cart_sessions (snd out2) = (cart_sessions db1 ++ [mkCartSession uuid2 (Some user)])%list).
Proof.
  intros Hok Hfree db1 out2.
  destruct (merge_success_clears user sid uuid1 db Hok) as (Hsid & Hs & Hi).
  fold db1 in Hs, Hi, Hfree.
  pose proof (merge_of_deleted_session user sid uuid2 db1 Hsid Hs Hi Hfree) as H2.
  fold out2 in H2. rewrite H2. cbn [fst snd].
  repeat split.
  - intros Hhas. destruct (sessions_of user db1); [congruence|].
    unfold set_cart_sessions. apply db_eta.
  - intros ->. cbn [cart_sessions set_cart_sessions].
    destruct (String.eqb uuid2 sid); [now left|now right].
Qed.

Lemma merge_twice_same_as_once_witness :
  cart_merge 7 (Some "g-1") "u-1" sample_merge_db
  = (mkResponse 200 (Message "Cart merged successfully"),
     mkDb [sample_product] [mkCartSession "s-7" (Some 7)] [mkCartItem 1 "s-7" 1 7]
          3 [] 1 []) /\
  cart_merge 7 (Some "g-1") "u-2"
    (mkDb [sample_product] [mkCartSession "s-7" (Some 7)] [mkCartItem 1 "s-7" 1 7]
          3 [] 1 [])
  = (mkResponse 200 (Message "Cart merged successfully"),
     mkDb [sample_product] [mkCartSession "s-7" (Some 7)] [mkCartItem 1 "s-7" 1 7]
          3 [] 1 []).
Proof.
  split; [reflexivity|].
  assert (Hhas : sessions_of 7 (snd (cart_merge 7 (Some "g-1") "u-1" sample_merge_db)) <> [])
    by discriminate.
  pose proof (merge_twice_same_as_once 7 "g-1" "u-1" "u-2" sample_merge_db
                eq_refl (or_introl Hhas)) as H.
  cbv zeta in H. destruct H as (H1 & _ & _ & _ & _ & _ & H7 & _).
  specialize (H7 Hhas).
  change (snd (cart_merge 7 (Some "g-1") "u-1" sample_merge_db))
    with (mkDb [sample_product] [mkCartSession "s-7" (Some 7)] [mkCartItem 1 "s-7" 1 7]
               3 [] 1 []) in H1, H7.
  rewrite (surjective_pairing (cart_merge 7 (Some "g-1") "u-2" _)), H1, H7.
  reflexivity.
Defined.

(** * Further properties of the routes *)

(** ** Order numbers *)

Lemma string_length_append (s u : string) :
  String.length (s ++ u) = (String.length s + String.length u)%nat.
Proof. induction s as [|c s IH]; simpl; [reflexivity|now rewrite IH]. Qed.

Lemma string_append_inj (s s' u u' : string) :
  String.length s = String.length s' ->
  (s ++ u)%string = (s' ++ u')%string -> s = s' /\ u = u'.
Proof.
  revert s'. induction s as [|c s IH]; intros [|c' s'] Hlen Heq;
    simpl in *; try discriminate.
  - now split.
  - injection Heq as -> Heq. injection Hlen as Hlen.
    destruct (IH s' Hlen Heq) as [-> ->]. now split.
Qed.

Lemma string_of_Z_inj (a b : Z) : string_of_Z a = string_of_Z b -> a = b.
Proof.
  unfold string_of_Z. intros H.
  assert (Hnn : forall z, Z.to_int z <> Decimal.Pos Decimal.Nil /\
                          Z.to_int z <> Decimal.Neg Decimal.Nil).
  { intros [|q|q]; simpl; split; try discriminate;
      intros [= E]; now apply (DecimalPos.Unsigned.to_uint_nonnil q). }
  apply DecimalZ.to_int_inj.
  assert (Some (Z.to_int a) = Some (Z.to_int b)) as [= E]; [|exact E].
  rewrite <- (NilZero.isi (Z.to_int a)), <- (NilZero.isi (Z.to_int b));
    try apply Hnn.
  now rewrite H.
Qed.

(** The three-character suffixes, for every value [Math.floor(Math.random() *
    1000)] can take, checked by evaluation. *)
Lemma suffixes_checked :
  forallb (fun r =>
             Nat.eqb (String.length (padStart 3 (string_of_Z r))) 3 &&
             match NilZero.int_of_string (padStart 3 (string_of_Z r)) with
             | Some d => Z.of_int d =? r
             | None => false
             end)
          (map Z.of_nat (seq 0 1000)) = true.
Proof. vm_compute. reflexivity. Qed.

Lemma suffix_checked (r : Z) :
  0 <= r < 1000 ->
  String.length (padStart 3 (string_of_Z r)) = 3%nat /\
  option_map Z.of_int (NilZero.int_of_string (padStart 3 (string_of_Z r))) = Some r.
Proof.
  intros Hr. pose proof suffixes_checked as H.
  rewrite forallb_forall in H. specialize (H r).
  assert (Hin : In r (map Z.of_nat (seq 0 1000))).
  { apply in_map_iff. exists (Z.to_nat r). split; [lia|]. apply in_seq. lia. }
  apply H in Hin. apply andb_true_iff in Hin. destruct Hin as [Hlen Hdec].
  split; [now apply Nat.eqb_eq|].
  destruct (NilZero.int_of_string _); [|discriminate].
  simpl. f_equal. now apply Z.eqb_eq.
Qed.

(** X1. Two calls of [generateOrderNumber] return the same order number
    only when both the timestamp and the random suffix coincide. *)
Theorem generateOrderNumber_injective now1 now2 r1 r2 :
  0 <= r1 < 1000 -> 0 <= r2 < 1000 ->
  generateOrderNumber now1 r1 = generateOrderNumber now2 r2 ->
  now1 = now2 /\ r1 = r2.
Proof.
  intros H1 H2 Heq. unfold generateOrderNumber in Heq.
  destruct (suffix_checked r1 H1) as [L1 D1].
  destruct (suffix_checked r2 H2) as [L2 D2].
  simpl in Heq. injection Heq as Heq.
  assert (Hlen : String.length (string_of_Z now1) = String.length (string_of_Z now2)).
  { apply (f_equal String.length) in Heq.
    rewrite !string_length_append in Heq. simpl in Heq. lia. }
  destruct (string_append_inj _ _ _ _ Hlen Heq) as [Hnow Hsuf].
  split; [now apply string_of_Z_inj|].
  injection Hsuf as Hsuf. rewrite Hsuf in D1. congruence.
Qed.

Lemma generateOrderNumber_injective_witness :
  1700000000000 = 1700000000000 /\ 7 = 7.
Proof.
  apply (generateOrderNumber_injective 1700000000000 1700000000000 7 7);
    [lia|lia|reflexivity].
Defined.

(** ** More on order creation *)

Lemma product_exists_after_decrement pid q k db :
  product_exists pid (set_products (stock_minus q k (products db)) db)
  = product_exists pid db.
Proof. unfold product_exists. simpl. apply existsb_stock_minus. Qed.




(** X3. A request with a blank required shipping field, a blank delivery
    method or no items is answered 400 with the list of violations, and
    nothing is written; a request with all of them present passes
    validation. *)
Theorem create_order_validation env user req db :
  (validate_order req = [] <->
   firstName (shippingAddress req) <> "" /\ lastName (shippingAddress req) <> "" /\
   address (shippingAddress req) <> "" /\ city (shippingAddress req) <> "" /\
   state (shippingAddress req) <> "" /\ zipCode (shippingAddress req) <> "" /\
   phone (shippingAddress req) <> "" /\ deliveryMethod req <> "" /\
   items req <> []) /\
  (validate_order req <> [] ->
   create_order env user req db
   = (mkResponse 400 (ValidationFailed "Validation failed" (validate_order req)), db)).
Proof.
  split; [|apply create_order_invalid].
  unfold validate_order, notEmpty.
  repeat match goal with
         | |- context [String.eqb ?a ""] => destruct (String.eqb_spec a "")
         end;
    destruct (items req); simpl; split; intros H;
    try discriminate; try reflexivity;
    try (repeat split; congruence);
    try (exfalso; tauto).
Qed.

Lemma create_order_validation_witness :
  create_order sample_env 7 (mkOrderRequest sample_address [] "") sample_db
  = (mkResponse 400
       (ValidationFailed "Validation failed"
          ["Delivery method is required"; "Cart items cannot be empty"]),
     sample_db).
Proof.
  apply (create_order_validation sample_env 7 (mkOrderRequest sample_address [] "")
           sample_db).
  discriminate.
Defined.

(** X4. When the generated order number is already taken, the header
    insert fails inside the transaction: the answer is the generic 500 and
    the database is exactly what it was. *)
Theorem create_order_number_collision env user req db o :
  validate_order req = [] ->
  In o (orders db) ->
  o_order_number o = generateOrderNumber (now env) (random env) ->
  create_order env user req db
  = (mkResponse 500 (Message "Failed to create order"), db).
Proof.
  intros Hv Hin Hnum. apply create_order_duplicate; [exact Hv|].
  apply existsb_exists. exists o. split; [exact Hin|].
  rewrite Hnum. apply String.eqb_refl.
Qed.

Lemma create_order_number_collision_witness :
  create_order sample_env 7 (sample_request 1 "standard")
    (snd (create_order sample_env 7 (sample_request 4 "standard") sample_db))
  = (mkResponse 500 (Message "Failed to create order"),
     snd (create_order sample_env 7 (sample_request 4 "standard") sample_db)).
Proof.
  apply (create_order_number_collision sample_env 7 (sample_request 1 "standard") _
           (mkOrder 1 "ORD-1700000000000-007" 7 pending 2000 0 0 2000
                    "1 Mill Road" "Pune" "MH" "411001" "standard")).
  - reflexivity.
  - left. reflexivity.
  - reflexivity.
Defined.

Lemma decrement_all_identity (lines : list order_line) :
  forall ps, map product_identity (decrement_all lines ps) = map product_identity ps.
Proof.
  induction lines as [|l lines IH]; intros ps; simpl; [reflexivity|].
  unfold decrement_all in IH. rewrite IH. unfold stock_minus. rewrite map_map.
  apply map_ext. intros p. destruct (p_id p =? product_id l); reflexivity.
Qed.

(** X5. Whatever it answers, POST /orders only appends: the orders and
    order lines that existed are still there, unchanged and in place, at
    most one order is added, and no product is added, removed, renamed,
    repriced or (de)activated. *)
Theorem create_order_only_appends env user req db :
  exists new_orders new_lines,
    orders (snd (create_order env user req db)) = (orders db ++ new_orders)%list /\
    (List.length new_orders <= 1)%nat /\
    order_items (snd (create_order env user req db)) = (order_items db ++ new_lines)%list /\
    map product_identity (products (snd (create_order env user req db)))
    = map product_identity (products db).
Proof.
  destruct (validate_order req) as [|e es] eqn:Hv.
  2:{ rewrite create_order_invalid by (rewrite Hv; discriminate).
      exists [], []. simpl. rewrite !app_nil_r. auto. }
  destruct (existsb (fun o => String.eqb (o_order_number o)
                                (generateOrderNumber (now env) (random env)))
                    (orders db)) eqn:Hfresh.
  { rewrite create_order_duplicate by assumption.
    exists [], []. simpl. rewrite !app_nil_r. auto. }
  destruct (create_order_run env user req db Hv Hfresh)
    as (done & rest & _ & -> & _).
  eexists [_], _. simpl. split; [reflexivity|]. split; [lia|].
  split; [reflexivity|]. apply decrement_all_identity.
Qed.




(** ** More on cancellation *)

(** POST /:id/cancel on an order of the caller that is neither delivered nor
    cancelled. *)
Lemma cancel_order_run user orderId db o others :
  filter (fun o => (o_id o =? orderId) && (o_user_id o =? user)) (orders db) = o :: others ->
  o_status o <> cancelled -> o_status o <> delivered ->
  cancel_order user orderId db
  = (mkResponse 200 (Message "Order cancelled successfully"),
     mkDb (map (restocked (lines_of_order orderId db)) (products db))
          (cart_sessions db) (cart_items db) (next_cart_item_id db)
          (mark_cancelled orderId (orders db))
          (next_order_id db) (order_items db)).
Proof.
  intros Hfound Hc Hd. unfold cancel_order, try_catch, bind, select_order_of_user.
  rewrite Hfound.
  destruct (o_status o); try congruence;
    unfold set_order_cancelled, select_order_items;
    rewrite increment_all_run; simpl; rewrite restock_fold; reflexivity.
Qed.

Lemma cancel_order_refused user orderId db o others :
  filter (fun o => (o_id o =? orderId) && (o_user_id o =? user)) (orders db) = o :: others ->
  o_status o = cancelled ->
  cancel_order user orderId db
  = (mkResponse 400 (Message "Order is already cancelled"), db).
Proof.
  intros Hfound Hc. unfold cancel_order, try_catch, bind, select_order_of_user.
  rewrite Hfound, Hc. reflexivity.
Qed.





(** X8. An order can only be cancelled by the user it belongs to: for any
    other caller, and for an id that names no order, the answer is 404 and
    nothing changes.  No role is looked at, so an administrator is refused
    like anyone else. *)
Theorem cancel_order_only_by_owner user orderId db :
  Forall (fun o => o_id o = orderId -> o_user_id o <> user) (orders db) ->
  cancel_order user orderId db = (mkResponse 404 (Message "Order not found"), db).
Proof.
  intros Hall. unfold cancel_order, try_catch, bind, select_order_of_user.
  assert (Hnone : filter (fun o => (o_id o =? orderId) && (o_user_id o =? user))
                         (orders db) = []).
  { induction Hall as [|o os Ho _ IH]; simpl; [reflexivity|].
    destruct (Z.eqb_spec (o_id o) orderId) as [E|E]; simpl; [|exact IH].
    destruct (Z.eqb_spec (o_user_id o) user) as [E'|E']; [|exact IH].
    now elim (Ho E). }
  rewrite Hnone. reflexivity.
Qed.

Lemma cancel_order_only_by_owner_witness :
  cancel_order 8 1 sample_ordered_db
  = (mkResponse 404 (Message "Order not found"), sample_ordered_db).
Proof.
  apply (cancel_order_only_by_owner 8 1 sample_ordered_db).
  constructor; [|constructor]. simpl. lia.
Defined.

Lemma filter_mark_cancelled (f : order -> bool) (orderId : Z) (os : list order) :
  (forall o, f (with_status cancelled o) = f o) ->
  filter f (mark_cancelled orderId os) = mark_cancelled orderId (filter f os).
Proof.
  intros Hf. unfold mark_cancelled.
  induction os as [|o os IH]; simpl; [reflexivity|].
  destruct (o_id o =? orderId) eqn:E.
  - rewrite Hf. destruct (f o); simpl; [rewrite E|]; now rewrite IH.
  - destruct (f o); simpl; [rewrite E|]; now rewrite IH.
Qed.

(** X9. Cancelling twice restores the stock once.  After a cancellation
    that succeeded, a second cancellation of the same order by the same user
    is refused with 400 and leaves the database, the stock included, as the
    first one left it. *)
Theorem cancel_twice_restores_once user orderId db :
  fst (cancel_order user orderId db)
  = mkResponse 200 (Message "Order cancelled successfully") ->
  cancel_order user orderId (snd (cancel_order user orderId db))
  = (mkResponse 400 (Message "Order is already cancelled"),
     snd (cancel_order user orderId db)).
Proof.
  intros Hok.
  destruct (filter (fun o => (o_id o =? orderId) && (o_user_id o =? user)) (orders db))
    as [|o others] eqn:Hfound.
  { revert Hok. unfold cancel_order, try_catch, bind, select_order_of_user.
    rewrite Hfound. simpl. discriminate. }
  assert (Hc : o_status o <> cancelled /\ o_status o <> delivered).
  { revert Hok. unfold cancel_order, try_catch, bind, select_order_of_user.
    rewrite Hfound. destruct (o_status o); simpl; try discriminate;
      intros _; split; discriminate. }
  destruct Hc as [Hc Hd].
  rewrite (cancel_order_run user orderId db o others Hfound Hc Hd). cbn [snd].
  assert (Hid : o_id o = orderId).
  { assert (Hin : In o (filter (fun o => (o_id o =? orderId) && (o_user_id o =? user))
                               (orders db))) by (rewrite Hfound; now left).
    apply filter_In in Hin. destruct Hin as [_ Hin].
    apply andb_true_iff in Hin. destruct Hin as [Hin _]. now apply Z.eqb_eq. }
  apply (cancel_order_refused user orderId _ (with_status cancelled o)
           (mark_cancelled orderId others)); [|reflexivity].
  cbn [orders]. rewrite filter_mark_cancelled by reflexivity.
  rewrite Hfound. unfold mark_cancelled. simpl.
  rewrite <- Hid, Z.eqb_refl. reflexivity.
Qed.

Lemma cancel_twice_restores_once_witness :
  cancel_order 7 1 (snd (cancel_order 7 1 sample_ordered_db))
  = (mkResponse 400 (Message "Order is already cancelled"),
     mkDb [sample_product] [] [] 1 [with_status cancelled sample_order] 2
          [mkOrderItem 1 1 "Olive oil" 500 4 2000]).
Proof.
  exact (cancel_twice_restores_once 7 1 sample_ordered_db eq_refl).
Defined.

(** ** Order status updates *)

Lemma status_of_string_valid (s : string) :
  validate_status s = [] <-> exists st, status_of_string s = Some st.
Proof.
  unfold validate_status, status_of_string. simpl.
  destruct (String.eqb s "pending"); [split; [eauto|reflexivity]|].
  destruct (String.eqb s "processing"); [split; [eauto|reflexivity]|].
  destruct (String.eqb s "shipped"); [split; [eauto|reflexivity]|].
  destruct (String.eqb s "delivered"); [split; [eauto|reflexivity]|].
  destruct (String.eqb s "cancelled"); [split; [eauto|reflexivity]|].
  simpl. split; [discriminate|intros [st H]; discriminate].
Qed.

Lemma update_order_status_run orderId newStatus st db :
  status_of_string newStatus = Some st ->
  existsb (fun o => o_id o =? orderId) (orders db) = true ->
  update_order_status orderId newStatus db
  = (mkResponse 200 (Message "Order status updated successfully"),
     mkDb (products db) (cart_sessions db) (cart_items db) (next_cart_item_id db)
          (map (fun o => if o_id o =? orderId then with_status st o else o) (orders db))
          (next_order_id db) (order_items db)).
Proof.
  intros Hst Hex. unfold update_order_status, try_catch.
  assert (Hv : validate_status newStatus = [])
    by (apply status_of_string_valid; eauto).
  rewrite Hv. cbn [negb is_empty].
  unfold bind, select_order.
  destruct (filter (fun o => o_id o =? orderId) (orders db)) as [|o os] eqn:Hf.
  { exfalso. apply existsb_exists in Hex. destruct Hex as (o & Hin & Ho).
    assert (H : In o (filter (fun o => o_id o =? orderId) (orders db)))
      by (apply filter_In; now split).
    rewrite Hf in H. contradiction. }
  unfold set_order_status. rewrite Hst. reflexivity.
Qed.

(** X10. PUT /:id/status accepts each of the five statuses for any existing
    order whatever its current status (so [delivered] and [cancelled] are
    not terminal here, and steps may be skipped or reversed).  It changes
    the status of that order and nothing else: in particular the stock is
    not touched, even when the new status is [cancelled]. *)
Theorem update_order_status_unguarded orderId newStatus st db :
  status_of_string newStatus = Some st ->
  existsb (fun o => o_id o =? orderId) (orders db) = true ->
  update_order_status orderId newStatus db
  = (mkResponse 200 (Message "Order status updated successfully"),
     mkDb (products db) (cart_sessions db) (cart_items db) (next_cart_item_id db)
          (map (fun o => if o_id o =? orderId then with_status st o else o) (orders db))
          (next_order_id db) (order_items db)).
Proof. apply update_order_status_run. Qed.

Lemma update_order_status_unguarded_witness :
  update_order_status 1 "pending"
    (mkDb [sample_product] [] [] 1 [with_status delivered sample_order] 2
          [mkOrderItem 1 1 "Olive oil" 500 4 2000])
  = (mkResponse 200 (Message "Order status updated successfully"),
     mkDb [sample_product] [] [] 1 [sample_order] 2
          [mkOrderItem 1 1 "Olive oil" 500 4 2000]).
Proof.
  exact (update_order_status_unguarded 1 "pending" pending
           (mkDb [sample_product] [] [] 1 [with_status delivered sample_order] 2
                 [mkOrderItem 1 1 "Olive oil" 500 4 2000])
           eq_refl eq_refl).
Defined.

(** X11. PUT /:id/status refuses a status outside the five with 400 and an
    id that names no order with 404; in both cases nothing is written. *)
Theorem update_order_status_rejections orderId newStatus db :
  (status_of_string newStatus = None ->
   update_order_status orderId newStatus db
   = (mkResponse 400 (ValidationFailed "Validation failed" ["Invalid status"]), db)) /\
  (status_of_string newStatus <> None ->
   existsb (fun o => o_id o =? orderId) (orders db) = false ->
   update_order_status orderId newStatus db
   = (mkResponse 404 (Message "Order not found"), db)).
Proof.
  split.
  - intros Hnone. unfold update_order_status, try_catch.
    destruct (validate_status newStatus) as [|e es] eqn:Hv.
    + apply status_of_string_valid in Hv. destruct Hv as [st Hst]. congruence.
    + revert Hv. unfold validate_status. destruct (existsb _ _); [discriminate|].
      intros [= <- <-]. reflexivity.
  - intros Hsome Hex. unfold update_order_status, try_catch.
    assert (Hv : validate_status newStatus = []).
    { apply status_of_string_valid. destruct (status_of_string newStatus); [eauto|congruence]. }
    rewrite Hv. cbn [negb is_empty]. unfold bind, select_order.
    rewrite (filter_none _ _ _ Hex). reflexivity.
Qed.

Lemma update_order_status_rejections_witness :
  update_order_status 1 "refunded" sample_ordered_db
  = (mkResponse 400 (ValidationFailed "Validation failed" ["Invalid status"]),
     sample_ordered_db) /\
  update_order_status 5 "shipped" sample_ordered_db
  = (mkResponse 404 (Message "Order not found"), sample_ordered_db).
Proof.
  destruct (update_order_status_rejections 1 "refunded" sample_ordered_db) as [H1 _].
  destruct (update_order_status_rejections 5 "shipped" sample_ordered_db) as [_ H2].
  split; [apply H1; reflexivity|apply H2; [discriminate|reflexivity]].
Defined.

(** X12. An order cancelled through PUT /:id/status keeps its stock
    reserved for good: the status update does not restock, and the owner's
    later POST /:id/cancel is refused with 400 because the order is already
    cancelled, so the products end with the stock they had before either
    request. *)
Theorem status_cancel_never_restocks user orderId db o others :
  filter (fun o => (o_id o =? orderId) && (o_user_id o =? user)) (orders db) = o :: others ->
  let updated := snd (update_order_status orderId "cancelled" db) in
  fst (update_order_status orderId "cancelled" db)
  = mkResponse 200 (Message "Order status updated successfully") /\
  cancel_order user orderId updated
  = (mkResponse 400 (Message "Order is already cancelled"), updated) /\
  products updated = products db.
Proof.
  intros Hfound updated.
  assert (Hin : In o (orders db) /\ o_id o = orderId).
  { assert (H : In o (filter (fun o => (o_id o =? orderId) && (o_user_id o =? user))
                             (orders db))) by (rewrite Hfound; now left).
    apply filter_In in H. destruct H as [H1 H2].
    apply andb_true_iff in H2. destruct H2 as [H2 _]. split; [exact H1|now apply Z.eqb_eq]. }
  destruct Hin as [Hin Hid].
  assert (Hex : existsb (fun o => o_id o =? orderId) (orders db) = true).
  { apply existsb_exists. exists o. split; [exact Hin|]. now apply Z.eqb_eq. }
  unfold updated.
  rewrite (update_order_status_run orderId "cancelled" cancelled db eq_refl Hex).
  cbn [fst snd products]. split; [reflexivity|]. split; [|reflexivity].
  apply (cancel_order_refused user orderId _ (with_status cancelled o)
           (mark_cancelled orderId others)); [|reflexivity].
  cbn [orders]. fold (mark_cancelled orderId (orders db)).
  rewrite filter_mark_cancelled by reflexivity.
  rewrite Hfound. unfold mark_cancelled. simpl.
  rewrite <- Hid, Z.eqb_refl. reflexivity.
Qed.

Lemma status_cancel_never_restocks_witness :
  fst (update_order_status 1 "cancelled" sample_ordered_db)
  = mkResponse 200 (Message "Order status updated successfully") /\
  cancel_order 7 1 (snd (update_order_status 1 "cancelled" sample_ordered_db))
  = (mkResponse 400 (Message "Order is already cancelled"),
     snd (update_order_status 1 "cancelled" sample_ordered_db)) /\
  products (snd (update_order_status 1 "cancelled" sample_ordered_db))
  = [mkProduct 1 "Olive oil" 500 6 active].
Proof.
  exact (status_cancel_never_restocks 7 1 sample_ordered_db sample_order [] eq_refl).
Defined.

(** ** Order statistics *)

Lemma count_bounds (f : order -> bool) (os : list order) :
  fold_right (fun o acc => (if f o then 1 else 0) + acc) 0 os
  = Z.of_nat (List.length (filter f os)).
Proof.
  induction os as [|o os IH]; simpl; [reflexivity|].
  rewrite IH. destruct (f o); simpl List.length; lia.
Qed.

Lemma status_partition (os : list order) :
  (List.length (filter (fun o => status_eqb (o_status o) pending) os) +
   List.length (filter (fun o => status_eqb (o_status o) processing) os) +
   List.length (filter (fun o => status_eqb (o_status o) shipped) os) +
   List.length (filter (fun o => status_eqb (o_status o) delivered) os) +
   List.length (filter (fun o => status_eqb (o_status o) cancelled) os))%nat
  = List.length os.
Proof.
  induction os as [|o os IH]; simpl; [reflexivity|].
  destruct (o_status o); simpl; lia.
Qed.

(** X13. In the statistics of GET /admin/stats, when there is at least one
    order, every order is counted under exactly one status, so the five
    per-status counts add up to [total_orders]; [total_revenue] is the sum of
    [total_amount] over all orders, the cancelled ones included.  On an
    empty table [total_orders] is 0 while the five counts and the revenue
    are NULL, not 0. *)
Theorem order_stats_add_up db :
  let stats := match select_order_stats db with
               | (Ok s, _) => s
               | (Throw _, _) => mkStats 0 None None None None None None
               end in
  snd (select_order_stats db) = db /\
  total_orders stats = Z.of_nat (List.length (orders db)) /\
  (orders db = [] ->
   pending_orders stats = None /\ processing_orders stats = None /\
   shipped_orders stats = None /\ delivered_orders stats = None /\
   cancelled_orders stats = None /\ total_revenue stats = None) /\
  (orders db <> [] ->
   exists p r s d c,
     pending_orders stats = Some p /\ processing_orders stats = Some r /\
     shipped_orders stats = Some s /\ delivered_orders stats = Some d /\
     cancelled_orders stats = Some c /\
     0 <= p /\ 0 <= r /\ 0 <= s /\ 0 <= d /\ 0 <= c /\
     p + r + s + d + c = total_orders stats /\
     total_revenue stats
     = Some (fold_right (fun o acc => o_total_amount o + acc) 0 (orders db))).
Proof.
  unfold select_order_stats. cbn [fst snd total_orders pending_orders processing_orders
    shipped_orders delivered_orders cancelled_orders total_revenue].
  split; [reflexivity|]. split; [reflexivity|]. split.
  - intros ->. repeat split; reflexivity.
  - intros Hne. destruct (orders db) as [|o os] eqn:E; [congruence|].
    unfold sql_sum. rewrite !count_bounds.
    do 5 eexists. repeat (split; [reflexivity|]).
    repeat (split; [apply Nat2Z.is_nonneg|]).
    split; [|reflexivity].
    rewrite <- (status_partition (o :: os)). lia.
Qed.

Lemma order_stats_add_up_witness :
  let db := mkDb [] [] [] 1
                 [sample_order; with_status cancelled sample_order;
                  with_status shipped sample_order] 4 [] in
  let stats := match select_order_stats db with
               | (Ok s, _) => s
               | (Throw _, _) => mkStats 0 None None None None None None
               end in
  exists p r s d c,
    pending_orders stats = Some p /\ processing_orders stats = Some r /\
    shipped_orders stats = Some s /\ delivered_orders stats = Some d /\
    cancelled_orders stats = Some c /\
    0 <= p /\ 0 <= r /\ 0 <= s /\ 0 <= d /\ 0 <= c /\
    p + r + s + d + c = 3 /\
    total_revenue stats = Some 6000.
Proof.
  cbv zeta.
  destruct (order_stats_add_up
              (mkDb [] [] [] 1
                    [sample_order; with_status cancelled sample_order;
                     with_status shipped sample_order] 4 [])) as (_ & _ & _ & H).
  apply H. discriminate.
Defined.

(** ** More on the cart *)

Lemma cart_quantity_cleared (sid t : string) (P : Z) (cs : list cart_item) :
  cart_quantity t P (filter (fun c => negb (String.eqb (ci_session_id c) sid)) cs)
  = if String.eqb t sid then 0 else cart_quantity t P cs.
Proof.
  induction cs as [|c cs IH]; simpl; [now destruct (String.eqb t sid)|].
  destruct (String.eqb_spec (ci_session_id c) sid) as [E|E]; simpl.
  - rewrite IH. destruct (String.eqb_spec t sid) as [E'|E']; [reflexivity|].
    subst sid. destruct (String.eqb_spec (ci_session_id c) t); [congruence|reflexivity].
  - rewrite IH. destruct (String.eqb_spec t sid) as [E'|E']; [|reflexivity].
    subst t. destruct (String.eqb_spec (ci_session_id c) sid); [congruence|reflexivity].
Qed.

(** X14. DELETE /clear by an authenticated user empties the first session
    bound to the user and nothing else: that session then holds quantity 0
    of every product, every other session holds what it held, the session
    row itself stays, and the [sessionId] of the query string is ignored.
    Clearing again changes nothing. *)
Theorem cart_clear_empties_own_session uid querySessionId db s more :
  sessions_of uid db = s :: more ->
  let out := cart_clear (Some uid) querySessionId db in
  fst out = mkResponse 200 (Message "Cart cleared successfully") /\
  (forall t P,
      cart_quantity t P (cart_items (snd out))
      = if String.eqb t (cs_session_id s) then 0 else cart_quantity t P (cart_items db)) /\
  cart_sessions (snd out) = cart_sessions db /\
  products (snd out) = products db /\
  out = cart_clear (Some uid) None db /\
  cart_clear (Some uid) querySessionId (snd out) = (fst out, snd out).
Proof.
  intros Hs out. unfold sessions_of in Hs.
  assert (Hrun : forall q d,
             cart_sessions d = cart_sessions db ->
             cart_clear (Some uid) q d
             = (mkResponse 200 (Message "Cart cleared successfully"),
                set_cart_items
                  (filter (fun c => negb (String.eqb (ci_session_id c) (cs_session_id s)))
                          (cart_items d)) d)).
  { intros q d Hd. unfold cart_clear, try_catch, bind, select_sessions_of_user.
    rewrite Hd, Hs. reflexivity. }
  unfold out. rewrite !(Hrun _ db eq_refl). cbn [fst snd].
  split; [reflexivity|]. split; [|split; [reflexivity|split; [reflexivity|split; [reflexivity|]]]].
  - intros t P. cbn [cart_items set_cart_items]. apply cart_quantity_cleared.
  - rewrite Hrun by reflexivity. f_equal.
    unfold set_cart_items. cbn [cart_items products cart_sessions next_cart_item_id
                                orders next_order_id order_items].
    f_equal. apply filter_negb_all, existsb_filter_negb.
Qed.

Lemma cart_clear_empties_own_session_witness :
  fst (cart_clear (Some 7) (Some "g-1") sample_merge_db)
  = mkResponse 200 (Message "Cart cleared successfully") /\
  cart_items (snd (cart_clear (Some 7) (Some "g-1") sample_merge_db))
  = [mkCartItem 2 "g-1" 1 3].
Proof.
  destruct (cart_clear_empties_own_session 7 (Some "g-1") sample_merge_db
              (mkCartSession "s-7" (Some 7)) [] eq_refl) as (H & _).
  split; [exact H|reflexivity].
Defined.

(** X15. DELETE /clear by a caller who is not authenticated empties the
    session named in the query string, whoever that session belongs to; no
    ownership is checked.  Without a session id nothing is touched. *)
Theorem cart_clear_guest_any_session sid db :
  sid <> "" ->
  cart_clear None (Some sid) db
  = (mkResponse 200 (Message "Cart cleared successfully"),
     set_cart_items
       (filter (fun c => negb (String.eqb (ci_session_id c) sid)) (cart_items db)) db) /\
  (forall P, cart_quantity sid P
               (cart_items (snd (cart_clear None (Some sid) db))) = 0) /\
  cart_clear None None db = (mkResponse 200 (Message "Cart is already empty"), db) /\
  cart_clear None (Some "") db = (mkResponse 200 (Message "Cart is already empty"), db).
Proof.
  intros Hsid.
  assert (Hrun : cart_clear None (Some sid) db
                 = (mkResponse 200 (Message "Cart cleared successfully"),
                    set_cart_items
                      (filter (fun c => negb (String.eqb (ci_session_id c) sid))
                              (cart_items db)) db)).
  { unfold cart_clear, try_catch, falsy_string.
    destruct (String.eqb_spec sid ""); [contradiction|reflexivity]. }
  split; [exact Hrun|]. split; [|split; reflexivity].
  intros P. rewrite Hrun. cbn [snd cart_items set_cart_items].
  rewrite cart_quantity_cleared. now rewrite String.eqb_refl.
Qed.

Lemma cart_clear_guest_any_session_witness :
  cart_clear None (Some "s-7") sample_cart_db
  = (mkResponse 200 (Message "Cart cleared successfully"),
     mkDb [sample_product] [mkCartSession "s-7" (Some 7)] [] 2 [] 1 []).
Proof.
  assert (Hne : "s-7" <> "") by discriminate.
  destruct (cart_clear_guest_any_session "s-7" sample_cart_db Hne) as (H & _).
  exact H.
Defined.

Lemma filter_some (A : Type) (f : A -> bool) (l : list A) :
  existsb f l = true -> filter f l <> [].
Proof.
  intros H Hf. apply existsb_exists in H. destruct H as (x & Hin & Hx).
  assert (Hin' : In x (filter f l)) by (apply filter_In; now split).
  rewrite Hf in Hin'. contradiction.
Qed.

Lemma not_bound_no_session (sid : string) (uid : Z) (ss : list cart_session) :
  Forall (fun s => cs_session_id s = sid -> cs_user_id s <> Some uid) ss ->
  filter (fun s => String.eqb (cs_session_id s) sid && option_Z_eqb (cs_user_id s) uid) ss
  = [].
Proof.
  induction 1 as [|s ss Hs _ IH]; simpl; [reflexivity|].
  destruct (String.eqb_spec (cs_session_id s) sid) as [E|E]; simpl; [|exact IH].
  destruct (cs_user_id s) as [u|] eqn:Eu; simpl; [|exact IH].
  destruct (Z.eqb_spec u uid) as [E'|E']; [|exact IH].
  subst u. now elim (Hs E).
Qed.

(** X16. An authenticated caller to whom the line's session is not bound is
    refused with 403 by DELETE /remove/:itemId and by PUT /update/:itemId,
    whatever the quantity, and nothing is written. *)
Theorem cart_line_protected_from_other_users uid itemId db c more :
  filter (fun x => ci_id x =? itemId) (cart_items db) = c :: more ->
  Forall (fun s => cs_session_id s = ci_session_id c -> cs_user_id s <> Some uid)
         (cart_sessions db) ->
  cart_remove (Some uid) itemId db = (mkResponse 403 (Message "Access denied"), db) /\
  (forall q, 0 <= q ->
             product_exists (ci_product_id c) db = true ->
             cart_update (Some uid) itemId q db
             = (mkResponse 403 (Message "Access denied"), db)).
Proof.
  intros Hc Hnot. pose proof (not_bound_no_session _ _ _ Hnot) as Hnone.
  split.
  - unfold cart_remove, try_catch, bind, select_cart_item. rewrite Hc.
    unfold access_denied, bind, select_session_of_user, ret. rewrite Hnone. reflexivity.
  - intros q Hq Hp. unfold cart_update, try_catch.
    destruct (Z.leb_spec 0 q); [|lia]. cbn [negb].
    unfold bind at 1. unfold select_cart_item_with_stock. rewrite Hc.
    cbn [flat_map].
    unfold product_exists in Hp.
    destruct (filter (fun p => p_id p =? ci_product_id c) (products db)) as [|p ps] eqn:Hf.
    { now elim (filter_some _ _ _ Hp). }
    cbn [map app]. unfold bind at 1.
    unfold access_denied, bind, select_session_of_user, ret. rewrite Hnone. reflexivity.
Qed.

Lemma cart_line_protected_from_other_users_witness :
  cart_remove (Some 8) 1 sample_cart_db
  = (mkResponse 403 (Message "Access denied"), sample_cart_db) /\
  cart_update (Some 8) 1 0 sample_cart_db
  = (mkResponse 403 (Message "Access denied"), sample_cart_db).
Proof.
  assert (Hnot : Forall (fun s => cs_session_id s = "s-7" -> cs_user_id s <> Some 8)
                        (cart_sessions sample_cart_db)).
  { constructor; [|constructor]. simpl. intros _ [= E]. }
  destruct (cart_line_protected_from_other_users 8 1 sample_cart_db
              (mkCartItem 1 "s-7" 1 4) [] eq_refl Hnot) as [H1 H2].
  split; [exact H1|]. apply H2; [lia|reflexivity].
Defined.

(** X17. The owner of a line removes it, and only it: DELETE
    /remove/:itemId by a user to whom the line's session is bound answers
    200, deletes the rows with that id and leaves every other cart line, the
    sessions and the products untouched. *)
Theorem cart_remove_by_owner uid itemId db c more s :
  filter (fun x => ci_id x =? itemId) (cart_items db) = c :: more ->
  In s (cart_sessions db) ->
  cs_session_id s = ci_session_id c ->
  cs_user_id s = Some uid ->
  cart_remove (Some uid) itemId db
  = (mkResponse 200 (Message "Item removed from cart"),
     set_cart_items (filter (fun x => negb (ci_id x =? itemId)) (cart_items db)) db) /\
  (forall x, In x (cart_items (snd (cart_remove (Some uid) itemId db))) <->
             In x (cart_items db) /\ ci_id x <> itemId).
Proof.
  intros Hc Hin Hsid Huid.
  assert (Hrun : cart_remove (Some uid) itemId db
                 = (mkResponse 200 (Message "Item removed from cart"),
                    set_cart_items (filter (fun x => negb (ci_id x =? itemId))
                                           (cart_items db)) db)).
  { unfold cart_remove, try_catch, bind, select_cart_item. rewrite Hc.
    unfold access_denied, bind, select_session_of_user, ret.
    rewrite (filter_finds _ _ _ s Hin); [reflexivity|].
    rewrite Hsid, String.eqb_refl, Huid. simpl. apply Z.eqb_refl. }
  split; [exact Hrun|]. intros x. rewrite Hrun. cbn [snd cart_items set_cart_items].
  rewrite filter_In. destruct (Z.eqb_spec (ci_id x) itemId); simpl; intuition congruence.
Qed.

Lemma cart_remove_by_owner_witness :
  cart_remove (Some 7) 1 sample_merge_db
  = (mkResponse 200 (Message "Item removed from cart"),
     mkDb [sample_product] [mkCartSession "s-7" (Some 7); mkCartSession "g-1" None]
          [mkCartItem 2 "g-1" 1 3] 3 [] 1 []).
Proof.
  destruct (cart_remove_by_owner 7 1 sample_merge_db (mkCartItem 1 "s-7" 1 4) []
              (mkCartSession "s-7" (Some 7)) eq_refl (or_introl eq_refl) eq_refl eq_refl)
    as [H _].
  exact H.
Defined.

(** [getOrCreateCartSession] either finds a session and writes nothing,
    or inserts the generated one, or fails on a duplicate session id. *)
Lemma getOrCreateCartSession_cases user uuid db :
  (exists s, getOrCreateCartSession user uuid db = (Ok s, db)) \/
  getOrCreateCartSession user uuid db = (Throw ER_DUP_ENTRY, db) \/
  (exists owner,
      getOrCreateCartSession user uuid db
      = (Ok uuid,
         set_cart_sessions (cart_sessions db ++ [mkCartSession uuid owner]) db)).
Proof.
  unfold getOrCreateCartSession, bind, insert_cart_session, select_sessions_of_user, ret.
  destruct user as [uid|].
  - destruct (uid =? 0).
    + destruct (existsb _ (cart_sessions db)); [now right; left|right; right; eauto].
    + destruct (map _ _); [|left; eauto].
      destruct (existsb _ (cart_sessions db)); [now right; left|right; right; eauto].
  - destruct (existsb _ (cart_sessions db)); [now right; left|right; right; eauto].
Qed.

(** X18. A POST /add that is refused with 400 or 404 (invalid input,
    product unknown or inactive, quantity above the stock, cumulative
    quantity above the stock) has written nothing, not even a session,
    provided the generated session id is not already used by stray cart
    lines. *)
Theorem cart_add_refusal_writes_nothing user P q uuid db :
  existsb (fun c => String.eqb (ci_session_id c) uuid) (cart_items db) = false ->
  status (fst (cart_add user P q uuid db)) = 400 \/
  status (fst (cart_add user P q uuid db)) = 404 ->
  snd (cart_add user P q uuid db) = db.
Proof.
  intros Hfree.
  destruct (cart_add user P q uuid db) as [r db'] eqn:E. simpl. intros Hst.
  unfold cart_add, try_catch in E.
  destruct (negb (is_empty (validate_add P q))); [now injection E as <- <-|].
  unfold bind at 1 in E. unfold select_active_product in E.
  destruct (filter _ (products db)) as [|product others]; [now injection E as <- <-|].
  destruct (p_stock product <? q); [now injection E as <- <-|].
  unfold bind at 1 in E.
  destruct (getOrCreateCartSession_cases user uuid db)
    as [[s Hs] | [Hs | [owner Hs]]]; rewrite Hs in E.
  - unfold bind, ret, select_cart_line in E.
    destruct (filter _ (cart_items db)) as [|existing rest].
    + unfold insert_cart_item in E.
      destruct (negb (product_exists P db));
        [injection E as <- <-; simpl in Hst; destruct Hst; discriminate|].
      match type of E with
      | context [if existsb ?f (cart_items db) then _ else _] =>
          destruct (existsb f (cart_items db))
      end; injection E as <- <-; simpl in Hst; destruct Hst; discriminate.
    + destruct (ci_quantity existing + q >? p_stock product);
        injection E as <- <-; [reflexivity|simpl in Hst; destruct Hst; discriminate].
  - injection E as <- <-. simpl in Hst; destruct Hst; discriminate.
  - unfold bind, ret, select_cart_line, set_cart_sessions in E. cbn [cart_items] in E.
    rewrite (filter_none _ _ _ (existsb_andb_l _ _ (fun c => ci_product_id c =? P) _ Hfree))
      in E.
    unfold insert_cart_item, product_exists in E. cbn [products cart_items] in E.
    rewrite (existsb_andb_l _ _ (fun c => ci_product_id c =? P) _ Hfree) in E.
    destruct (negb (existsb _ (products db)));
      injection E as <- <-; simpl in Hst; destruct Hst; discriminate.
Qed.

Lemma cart_add_refusal_writes_nothing_witness :
  snd (cart_add None 1 11 "g-9" sample_db) = sample_db.
Proof.
  apply (cart_add_refusal_writes_nothing None 1 11 "g-9" sample_db);
    [reflexivity|left; reflexivity].
Defined.

(** X19. An authenticated user keeps one cart across requests: once
    [getOrCreateCartSession] has returned a session for the user, every
    later call returns that same session and writes nothing, whatever id
    [uuidv4()] would have produced. *)
Theorem getOrCreateCartSession_stable uid uuid db s db1 :
  uid <> 0 ->
  getOrCreateCartSession (Some uid) uuid db = (Ok s, db1) ->
  forall uuid', getOrCreateCartSession (Some uid) uuid' db1 = (Ok s, db1).
Proof.
  intros Huid Hrun uuid'. unfold getOrCreateCartSession in *.
  destruct (Z.eqb_spec uid 0); [contradiction|].
  unfold bind, select_sessions_of_user, ret, insert_cart_session in *.
  destruct (filter (fun s => option_Z_eqb (cs_user_id s) uid) (cart_sessions db))
    as [|s0 more] eqn:Hf; cbn [map] in Hrun.
  - destruct (existsb _ (cart_sessions db)); [discriminate|].
    injection Hrun as <- <-. cbn [cart_sessions set_cart_sessions].
    rewrite filter_snoc, Hf. simpl. rewrite Z.eqb_refl. reflexivity.
  - injection Hrun as <- <-. rewrite Hf. reflexivity.
Qed.

Lemma getOrCreateCartSession_stable_witness :
  getOrCreateCartSession (Some 7) "s-8"
    (mkDb [sample_product] [mkCartSession "s-7" (Some 7)] [] 1 [] 1 [])
  = (Ok "s-7", mkDb [sample_product] [mkCartSession "s-7" (Some 7)] [] 1 [] 1 []).
Proof.
  assert (Huid : 7 <> 0) by lia.
  exact (getOrCreateCartSession_stable 7 "s-7" sample_db "s-7"
           (mkDb [sample_product] [mkCartSession "s-7" (Some 7)] [] 1 [] 1 [])
           Huid eq_refl "s-8").
Defined.

(** *** What a merge does to the quantities *)

Lemma cart_quantity_app t P (a b : list cart_item) :
  cart_quantity t P (a ++ b) = cart_quantity t P a + cart_quantity t P b.
Proof.
  induction a as [|c a IH]; simpl; [reflexivity|].
  rewrite IH. destruct (_ && _); lia.
Qed.

Lemma update_absent_id (i nq : Z) (cs : list cart_item) :
  ~ In i (map ci_id cs) ->
  map (fun c => if ci_id c =? i
                then mkCartItem (ci_id c) (ci_session_id c) (ci_product_id c) nq
                else c) cs = cs.
Proof.
  induction cs as [|c cs IH]; simpl; [reflexivity|].
  intros Hn. destruct (Z.eqb_spec (ci_id c) i) as [E|E]; [tauto|].
  rewrite IH; [reflexivity|tauto].
Qed.

Lemma cart_quantity_update t P (e : cart_item) (nq : Z) (cs : list cart_item) :
  NoDup (map ci_id cs) -> In e cs ->
  cart_quantity t P
    (map (fun c => if ci_id c =? ci_id e
                   then mkCartItem (ci_id c) (ci_session_id c) (ci_product_id c) nq
                   else c) cs)
  = cart_quantity t P cs +
    (if String.eqb (ci_session_id e) t && (ci_product_id e =? P)
     then nq - ci_quantity e else 0).
Proof.
  induction cs as [|c cs IH]; simpl; [tauto|].
  intros Hnd [-> | Hin]; apply NoDup_cons_iff in Hnd; destruct Hnd as [Hc Hnd].
  - rewrite Z.eqb_refl. simpl. rewrite (update_absent_id _ _ _ Hc).
    destruct (_ && _); lia.
  - destruct (Z.eqb_spec (ci_id c) (ci_id e)) as [E|E].
    + exfalso. apply Hc. rewrite E. now apply in_map.
    + rewrite (IH Hnd Hin). destruct (String.eqb (ci_session_id c) t && _); lia.
Qed.

(** One turn of the merge loop that goes through adds the guest line's
    quantity to what the target session holds of that product, and changes
    no other quantity. *)
Lemma merge_item_quantities tid (g : cart_item) d d' :
  merge_item tid g d = (Ok tt, d') ->
  cart_ids_in_use (cart_items d) (next_cart_item_id d) ->
  cart_ids_in_use (cart_items d') (next_cart_item_id d') /\
  cart_sessions d' = cart_sessions d /\
  forall t P,
    cart_quantity t P (cart_items d')
    = cart_quantity t P (cart_items d) +
      (if String.eqb tid t && (ci_product_id g =? P) then ci_quantity g else 0).
Proof.
  intros Hrun [Hnd Hlt]. unfold merge_item, bind, select_cart_line in Hrun.
  destruct (filter (fun c => String.eqb (ci_session_id c) tid &&
                             (ci_product_id c =? ci_product_id g)) (cart_items d))
    as [|e rest] eqn:Hf.
  - unfold insert_cart_item in Hrun.
    destruct (negb (product_exists (ci_product_id g) d)); [discriminate|].
    destruct (existsb _ (cart_items d)); [discriminate|].
    injection Hrun as <-. cbn [cart_items next_cart_item_id cart_sessions].
    split; [|split; [reflexivity|]].
    + split.
      * rewrite map_app. apply NoDup_app; [exact Hnd|repeat constructor; simpl; tauto|].
        intros i Hi [<-|[]]. simpl in Hi. apply in_map_iff in Hi.
        destruct Hi as (c & Hc & Hin). rewrite Forall_forall in Hlt.
        specialize (Hlt c Hin). lia.
      * apply Forall_app. split.
        -- eapply Forall_impl; [|exact Hlt]. intros c Hc. cbv beta in *. lia.
        -- repeat constructor. simpl. lia.
    + intros t P. rewrite cart_quantity_app. simpl. destruct (_ && _); lia.
  - unfold update_cart_item_quantity in Hrun. injection Hrun as <-.
    cbn [cart_items next_cart_item_id cart_sessions set_cart_items].
    assert (He : In e (cart_items d) /\ ci_session_id e = tid /\
                 ci_product_id e = ci_product_id g).
    { assert (H : In e (filter (fun c => String.eqb (ci_session_id c) tid &&
                                         (ci_product_id c =? ci_product_id g))
                               (cart_items d))) by (rewrite Hf; now left).
      apply filter_In in H. destruct H as [H1 H2].
      apply andb_true_iff in H2. destruct H2 as [H2 H3].
      split; [exact H1|]. split; [now apply String.eqb_eq|now apply Z.eqb_eq]. }
    destruct He as (Hin & Hs & Hp).
    split; [|split; [reflexivity|]].
    + split.
      * rewrite map_map. erewrite map_ext; [exact Hnd|].
        intros c. simpl. destruct (ci_id c =? ci_id e); reflexivity.
      * apply Forall_forall. intros c Hc. apply in_map_iff in Hc.
        destruct Hc as (c0 & <- & Hc0). rewrite Forall_forall in Hlt.
        specialize (Hlt c0 Hc0). destruct (ci_id c0 =? ci_id e); simpl; exact Hlt.
    + intros t P. rewrite (cart_quantity_update t P e _ _ Hnd Hin), Hs, Hp.
      destruct (_ && _); lia.
Qed.

Lemma merge_loop_quantities tid sid (guest : list cart_item) :
  forall d d',
    Forall (fun g => ci_session_id g = sid) guest ->
    for_of guest (merge_item tid) d = (Ok tt, d') ->
    cart_ids_in_use (cart_items d) (next_cart_item_id d) ->
    cart_sessions d' = cart_sessions d /\
    forall t P,
      cart_quantity t P (cart_items d')
      = cart_quantity t P (cart_items d) +
        (if String.eqb tid t then cart_quantity sid P guest else 0).
Proof.
  induction guest as [|g guest IH]; intros d d' Hg Hrun Hids.
  - simpl in Hrun. injection Hrun as <-. split; [reflexivity|].
    intros t P. simpl. destruct (String.eqb tid t); lia.
  - simpl in Hrun. unfold bind in Hrun.
    destruct (merge_item tid g d) as [[[]|e] d1] eqn:Hstep; [|discriminate].
    apply Forall_cons_iff in Hg. destruct Hg as [Hgs Hg].
    destruct (merge_item_quantities tid g d d1 Hstep Hids) as (Hids1 & Hss1 & Hq1).
    destruct (IH d1 d' Hg Hrun Hids1) as (Hss & Hq).
    split; [congruence|].
    intros t P. rewrite Hq, Hq1. simpl. rewrite Hgs, String.eqb_refl. simpl.
    destruct (String.eqb tid t); simpl; destruct (ci_product_id g =? P); lia.
Qed.

Lemma cart_quantity_filter_session sid P (cs : list cart_item) :
  cart_quantity sid P (filter (fun c => String.eqb (ci_session_id c) sid) cs)
  = cart_quantity sid P cs.
Proof.
  induction cs as [|c cs IH]; simpl; [reflexivity|].
  destruct (String.eqb (ci_session_id c) sid) eqn:E; simpl; rewrite ?E, IH; reflexivity.
Qed.

(** X20. A merge that answers 200, for a user who already has a session
    other than the guest one, moves the guest quantities into the user's
    cart: for every product the user's session then holds what it held plus
    what the guest session held, the guest session holds nothing, and every
    other session holds what it held.  The stock is not consulted, so the
    sum may exceed it. *)
Theorem merge_adds_guest_quantities user sid uuid db us more :
  sessions_of user db = us :: more ->
  cs_session_id us <> sid ->
  cart_ids_in_use (cart_items db) (next_cart_item_id db) ->
  status (fst (cart_merge user (Some sid) uuid db)) = 200 ->
  forall P t,
    cart_quantity t P (cart_items (snd (cart_merge user (Some sid) uuid db)))
    = if String.eqb t sid then 0
      else if String.eqb t (cs_session_id us)
           then cart_quantity t P (cart_items db) + cart_quantity sid P (cart_items db)
           else cart_quantity t P (cart_items db).
Proof.
  intros Hus Hne Hids.
  destruct (cart_merge user (Some sid) uuid db) as [r db'] eqn:E. simpl. intros Hok P t.
  unfold cart_merge, try_catch in E. unfold falsy_string in E.
  destruct (String.eqb sid "") eqn:Hsid; [injection E as <- <-; discriminate|].
  unfold bind at 1 in E. unfold select_sessions_of_user in E.
  unfold sessions_of in Hus. rewrite Hus in E. cbn [map] in E.
  unfold bind at 1 in E. unfold ret at 1 in E.
  unfold bind at 1 in E. unfold select_cart_items_of_session in E.
  unfold bind at 1 in E.
  destruct (for_of _ _ db) as [[[]|e] db2] eqn:Hloop; [|injection E as <- <-; discriminate].
  unfold bind, delete_cart_session, delete_cart_items_of_session, ret in E.
  injection E as <- <-. cbn [cart_items set_cart_items set_cart_sessions].
  rewrite cart_quantity_cleared.
  destruct (String.eqb_spec t sid) as [Ets|Ets]; [reflexivity|].
  apply merge_loop_quantities with (sid := sid) in Hloop; [|
    apply Forall_forall; intros g Hg; apply filter_In in Hg;
    now apply String.eqb_eq | exact Hids].
  destruct Hloop as [_ Hq]. rewrite Hq, cart_quantity_filter_session.
  rewrite (String.eqb_sym (cs_session_id us) t).
  destruct (String.eqb t (cs_session_id us)); lia.
Qed.

Lemma merge_adds_guest_quantities_witness :
  cart_quantity "s-7" 1
    (cart_items (snd (cart_merge 7 (Some "g-1") "u-1" sample_merge_db))) = 4 + 3 /\
  cart_quantity "g-1" 1
    (cart_items (snd (cart_merge 7 (Some "g-1") "u-1" sample_merge_db))) = 0.
Proof.
  assert (Hne : cs_session_id (mkCartSession "s-7" (Some 7)) <> "g-1") by discriminate.
  assert (Hids : cart_ids_in_use (cart_items sample_merge_db)
                                 (next_cart_item_id sample_merge_db)).
  { split.
    - repeat constructor; simpl; intuition discriminate.
    - repeat constructor; simpl; lia. }
  pose proof (merge_adds_guest_quantities 7 "g-1" "u-1" sample_merge_db
                (mkCartSession "s-7" (Some 7)) [] eq_refl Hne Hids eq_refl) as H.
  split; [exact (H 1 "s-7")|exact (H 1 "g-1")].
Defined.

Lemma merge_item_keeps_one_line tid (g : cart_item) d :
  one_line_per_product (cart_items d) ->
  one_line_per_product (cart_items (snd (merge_item tid g d))).
Proof.
  intros Hinv. unfold merge_item, bind, select_cart_line.
  destruct (filter _ (cart_items d)) as [|e rest].
  - unfold insert_cart_item.
    destruct (negb (product_exists (ci_product_id g) d)); [exact Hinv|].
    destruct (existsb _ (cart_items d)) eqn:Hnone; [exact Hinv|].
    simpl. now apply one_line_snoc.
  - simpl. now apply one_line_update.
Qed.

Lemma merge_loop_keeps_one_line tid (guest : list cart_item) :
  forall d,
    one_line_per_product (cart_items d) ->
    one_line_per_product (cart_items (snd (for_of guest (merge_item tid) d))).
Proof.
  induction guest as [|g guest IH]; intros d Hinv; [exact Hinv|].
  simpl. unfold bind.
  pose proof (merge_item_keeps_one_line tid g d Hinv) as H1.
  destruct (merge_item tid g d) as [[[]|e] d1]; simpl in H1; [|exact H1].
  now apply IH.
Qed.

(** X21. The other cart routes keep the invariant too: if no session holds
    two lines of one product, the same is true after POST /merge, after
    DELETE /remove/:itemId and after DELETE /clear, whoever calls them and
    whatever they answer. *)
Theorem cart_routes_keep_one_line db :
  one_line_per_product (cart_items db) ->
  (forall user sessionId uuid,
      one_line_per_product (cart_items (snd (cart_merge user sessionId uuid db)))) /\
  (forall user itemId,
      one_line_per_product (cart_items (snd (cart_remove user itemId db)))) /\
  (forall user querySessionId,
      one_line_per_product (cart_items (snd (cart_clear user querySessionId db)))).
Proof.
  intros Hinv. split; [|split].
  - intros user sessionId uuid. unfold cart_merge, try_catch.
    destruct sessionId as [sid|]; [|exact Hinv].
    destruct (falsy_string (Some sid)); [exact Hinv|].
    unfold bind at 1. unfold select_sessions_of_user.
    unfold bind at 1.
    assert (Hses : forall (m : M string) ,
               (m = (insert_cart_session uuid (Some user) ;;; ret uuid) \/
                exists s, m = ret s) ->
               cart_items (snd (m db)) = cart_items db).
    { intros m [-> | [s ->]]; [|reflexivity].
      unfold bind, insert_cart_session, ret.
      destruct (existsb _ (cart_sessions db)); reflexivity. }
    match goal with
    | |- context [match ?m db with _ => _ end] =>
        assert (H1 : cart_items (snd (m db)) = cart_items db)
          by (apply Hses; destruct (map cs_session_id _); [now left|right; eauto]);
        destruct (m db) as [[tid|e] db1]
    end; simpl in H1; [|simpl; now rewrite H1].
    unfold bind at 1. unfold select_cart_items_of_session. unfold bind at 1.
    assert (H2 := merge_loop_keeps_one_line tid
                    (filter (fun c => String.eqb (ci_session_id c) sid) (cart_items db1))
                    db1).
    assert (Hinv1 : one_line_per_product (cart_items db1)) by (rewrite H1; exact Hinv).
    specialize (H2 Hinv1).
    destruct (for_of _ _ db1) as [[[]|e] db2]; simpl in H2; [|exact H2].
    simpl. now apply one_line_filter.
  - intros user itemId. unfold cart_remove, try_catch, bind, select_cart_item.
    destruct (filter _ (cart_items db)) as [|c rest]; [exact Hinv|].
    assert (Hden : exists b, access_denied user (ci_session_id c) db = (Ok b, db)).
    { unfold access_denied, bind, select_session_of_user, ret.
      destruct user; eexists; reflexivity. }
    destruct Hden as [b ->]. destruct b; [exact Hinv|].
    simpl. now apply one_line_filter.
  - intros user q. unfold cart_clear, try_catch.
    destruct user as [uid|].
    + unfold bind, select_sessions_of_user.
      destruct (map cs_session_id _); [exact Hinv|]. simpl. now apply one_line_filter.
    + destruct q as [sid|]; [|exact Hinv].
      destruct (falsy_string (Some sid)); [exact Hinv|].
      simpl. now apply one_line_filter.
Qed.

Lemma cart_routes_keep_one_line_witness :
  one_line_per_product
    (cart_items (snd (cart_merge 7 (Some "g-1") "u-1" sample_merge_db))).
Proof.
  assert (Hinv : one_line_per_product (cart_items sample_merge_db)).
  { unfold one_line_per_product. simpl.
    repeat constructor; simpl; intuition discriminate. }
  destruct (cart_routes_keep_one_line sample_merge_db Hinv) as [H _].
  exact (H 7 (Some "g-1") "u-1").
Defined.

(** X22. A PUT /update/:itemId or DELETE /remove/:itemId that is refused
    with 400 (invalid quantity, quantity above the stock), 403 or 404 has
    written nothing. *)
Theorem cart_update_remove_refusal_writes_nothing user itemId q db :
  (status (fst (cart_update user itemId q db)) = 400 \/
   status (fst (cart_update user itemId q db)) = 403 \/
   status (fst (cart_update user itemId q db)) = 404 ->
   snd (cart_update user itemId q db) = db) /\
  (status (fst (cart_remove user itemId db)) = 403 \/
   status (fst (cart_remove user itemId db)) = 404 ->
   snd (cart_remove user itemId db) = db).
Proof.
  assert (Hden : forall sid, exists b, access_denied user sid db = (Ok b, db)).
  { intros sid. unfold access_denied, bind, select_session_of_user, ret.
    destruct user; eexists; reflexivity. }
  split.
  - destruct (cart_update user itemId q db) as [r db'] eqn:E. simpl. intros Hst.
    unfold cart_update, try_catch in E.
    destruct (negb (0 <=? q)); [now injection E as <- <-|].
    unfold bind at 1 in E. unfold select_cart_item_with_stock in E.
    destruct (flat_map _ _) as [|[c stock] more]; [now injection E as <- <-|].
    unfold bind at 1 in E. destruct (Hden (ci_session_id c)) as [b Hb]. rewrite Hb in E.
    destruct b; [now injection E as <- <-|].
    destruct (q =? 0);
      [injection E as <- <-; simpl in Hst; destruct Hst as [H|[H|H]]; discriminate|].
    destruct (q >? stock); injection E as <- <-; [reflexivity|].
    simpl in Hst; destruct Hst as [H|[H|H]]; discriminate.
  - destruct (cart_remove user itemId db) as [r db'] eqn:E. simpl. intros Hst.
    unfold cart_remove, try_catch in E. unfold bind at 1 in E.
    unfold select_cart_item in E.
    destruct (filter _ (cart_items db)) as [|c more]; [now injection E as <- <-|].
    unfold bind at 1 in E. destruct (Hden (ci_session_id c)) as [b Hb]. rewrite Hb in E.
    destruct b; injection E as <- <-; [reflexivity|].
    simpl in Hst; destruct Hst as [H|H]; discriminate.
Qed.

Lemma cart_update_remove_refusal_writes_nothing_witness :
  snd (cart_update (Some 7) 1 11 sample_cart_db) = sample_cart_db /\
  snd (cart_remove (Some 8) 1 sample_cart_db) = sample_cart_db.
Proof.
  destruct (cart_update_remove_refusal_writes_nothing (Some 7) 1 11 sample_cart_db)
    as (H1 & _).
  destruct (cart_update_remove_refusal_writes_nothing (Some 8) 1 0 sample_cart_db)
    as (_ & H2).
  split; [apply H1; left; reflexivity|apply H2; left; reflexivity].
Defined.

(** *** The stock bound of POST /add *)

Lemma cart_quantity_single t P (cs : list cart_item) e :
  one_line_per_product cs ->
  filter (fun c => String.eqb (ci_session_id c) t && (ci_product_id c =? P)) cs = e :: nil
  \/ In e (filter (fun c => String.eqb (ci_session_id c) t && (ci_product_id c =? P)) cs) ->
  cart_quantity t P cs = ci_quantity e.
Proof.
  intros Hinv Hin.
  assert (He : In e (filter (fun c => String.eqb (ci_session_id c) t &&
                                      (ci_product_id c =? P)) cs)).
  { destruct Hin as [-> | H]; [now left|exact H]. }
  clear Hin. unfold one_line_per_product in Hinv.
  induction cs as [|c cs IH]; simpl in *; [contradiction|].
  apply NoDup_cons_iff in Hinv. destruct Hinv as [Hc Hinv].
  destruct (String.eqb (ci_session_id c) t && (ci_product_id c =? P)) eqn:Ec.
  - assert (Hzero : cart_quantity t P cs = 0).
    { apply andb_true_iff in Ec. destruct Ec as [Es Ep].
      apply String.eqb_eq in Es. apply Z.eqb_eq in Ep.
      clear -Hc Es Ep. induction cs as [|c' cs IH]; simpl; [reflexivity|].
      destruct (String.eqb_spec (ci_session_id c') t) as [E1|E1]; simpl.
      - destruct (Z.eqb_spec (ci_product_id c') P) as [E2|E2].
        + exfalso. apply Hc. left. now rewrite E1, E2, Es, Ep.
        + apply IH. intros H. apply Hc. now right.
      - apply IH. intros H. apply Hc. now right. }
    destruct He as [<- | He].
    + lia.
    + exfalso. apply filter_In in He. destruct He as [He Hk].
      apply andb_true_iff in Hk. destruct Hk as [Hs Hp].
      apply andb_true_iff in Ec. destruct Ec as [Es Ep].
      apply String.eqb_eq in Hs, Es. apply Z.eqb_eq in Hp, Ep.
      apply Hc. apply in_map_iff. exists e. split; [|exact He]. congruence.
  - now apply IH.
Qed.

(** X23. POST /add with the quantity sent as a JSON number (not as a
    numeric string), by an authenticated user who already has a session, on
    a cart that has at most one line per product: when the answer is 200,
    the session holds of the product what it held plus the quantity added,
    this total is within the stock of the product as read by the request,
    and every other quantity of every cart is unchanged. *)
Theorem cart_add_is_additive_within_stock uid P q uuid db s more :
  uid <> 0 ->
  sessions_of uid db = s :: more ->
  cart_ids_in_use (cart_items db) (next_cart_item_id db) ->
  one_line_per_product (cart_items db) ->
  status (fst (cart_add (Some uid) P q uuid db)) = 200 ->
  let after := cart_items (snd (cart_add (Some uid) P q uuid db)) in
  1 <= q /\
  cart_quantity (cs_session_id s) P after
  = cart_quantity (cs_session_id s) P (cart_items db) + q /\
  (exists p others,
      filter (fun x => (p_id x =? P) &&
                       match p_status x with active => true | inactive => false end)
             (products db) = p :: others /\
      cart_quantity (cs_session_id s) P after <= p_stock p) /\
  (forall t P', (t, P') <> (cs_session_id s, P) ->
                cart_quantity t P' after = cart_quantity t P' (cart_items db)).
Proof.
  intros Huid Hs Hids Hinv.
  destruct (cart_add (Some uid) P q uuid db) as [r db'] eqn:E. simpl. intros Hok.
  unfold cart_add, try_catch, validate_add in E.
  destruct (Z.leb_spec 1 P); [|destruct (1 <=? q); injection E as <- <-; discriminate].
  destruct (Z.leb_spec 1 q); [|injection E as <- <-; discriminate].
  cbn [app is_empty negb] in E.
  unfold bind at 1 in E. unfold select_active_product in E.
  destruct (filter _ (products db)) as [|p others] eqn:Hp;
    [injection E as <- <-; discriminate|].
  destruct (Z.ltb_spec (p_stock p) q); [injection E as <- <-; discriminate|].
  unfold getOrCreateCartSession in E.
  destruct (Z.eqb_spec uid 0); [contradiction|].
  unfold bind at 1 in E. unfold bind at 1 in E. unfold select_sessions_of_user in E.
  unfold sessions_of in Hs. rewrite Hs in E. cbn [map] in E. unfold ret at 1 in E.
  pose (tid := cs_session_id s). fold tid in E |- *.
  assert (Hstep : forall g d',
             merge_item tid g db = (Ok tt, d') ->
             forall t P',
               cart_quantity t P' (cart_items d')
               = cart_quantity t P' (cart_items db) +
                 (if String.eqb tid t && (ci_product_id g =? P') then ci_quantity g else 0)).
  { intros g d' Hm. now destruct (merge_item_quantities tid g db d' Hm Hids). }
  specialize (Hstep (mkCartItem 0 "" P q)).
  unfold merge_item, bind, select_cart_line in Hstep. cbn [ci_product_id ci_quantity] in Hstep.
  unfold bind, select_cart_line in E.
  destruct (filter (fun c => String.eqb (ci_session_id c) tid && (ci_product_id c =? P))
                   (cart_items db)) as [|e rest] eqn:Hf.
  - destruct (insert_cart_item tid P q db) as [[[]|err] d1] eqn:Hins;
      [|injection E as <- <-; discriminate].
    injection E as <- <-. specialize (Hstep d1 eq_refl).
    assert (Hzero : cart_quantity tid P (cart_items db) = 0).
    { clear -Hf. induction (cart_items db) as [|c cs IH]; simpl in *; [reflexivity|].
      destruct (String.eqb (ci_session_id c) tid && (ci_product_id c =? P));
        [discriminate|now apply IH]. }
    split; [assumption|]. split; [|split].
    + rewrite Hstep, String.eqb_refl, Z.eqb_refl. reflexivity.
    + exists p, others. split; [reflexivity|].
      rewrite Hstep, String.eqb_refl, Z.eqb_refl. simpl. lia.
    + intros t P' Hne. rewrite Hstep.
      destruct (String.eqb_spec tid t) as [E1|E1]; simpl; [|lia].
      destruct (Z.eqb_spec P P') as [E2|E2]; [|lia]. congruence.
  - destruct (Z.gtb_spec (ci_quantity e + q) (p_stock p));
      [injection E as <- <-; discriminate|].
    injection E as <- <-.
    specialize (Hstep _ eq_refl).
    assert (Hsame : forall t P',
               cart_quantity t P'
                 (cart_items (snd (update_cart_item_quantity (ci_quantity e + q) (ci_id e) db)))
               = cart_quantity t P' (cart_items db) +
                 (if String.eqb tid t && (P =? P') then q else 0)).
    { exact Hstep. }
    assert (Hone : cart_quantity tid P (cart_items db) = ci_quantity e).
    { apply cart_quantity_single; [exact Hinv|]. right. rewrite Hf. now left. }
    split; [assumption|]. split; [|split].
    + rewrite Hsame, String.eqb_refl, Z.eqb_refl. reflexivity.
    + exists p, others. split; [reflexivity|].
      rewrite Hsame, String.eqb_refl, Z.eqb_refl. simpl. lia.
    + intros t P' Hne. rewrite Hsame.
      destruct (String.eqb_spec tid t) as [E1|E1]; simpl; [|lia].
      destruct (Z.eqb_spec P P') as [E2|E2]; [|lia]. congruence.
Qed.

Lemma cart_add_is_additive_within_stock_witness :
  cart_quantity "s-7" 1 (cart_items (snd (cart_add (Some 7) 1 3 "u-1" sample_cart_db)))
  = 4 + 3.
Proof.
  assert (Huid : 7 <> 0) by lia.
  assert (Hids : cart_ids_in_use (cart_items sample_cart_db)
                                 (next_cart_item_id sample_cart_db)).
  { split.
    - simpl. constructor; [simpl; tauto|constructor].
    - simpl. constructor; [simpl; lia|constructor]. }
  assert (Hinv : one_line_per_product (cart_items sample_cart_db)).
  { unfold one_line_per_product. simpl. constructor; [simpl; tauto|constructor]. }
  destruct (cart_add_is_additive_within_stock 7 1 3 "u-1" sample_cart_db
              (mkCartSession "s-7" (Some 7)) [] Huid eq_refl Hids Hinv eq_refl)
    as (_ & H & _).
  exact H.
Defined.

(** * Order totals on arbitrary JSON numbers *)

Lemma round_half_away_comp (x y : Q) :
  (x == y)%Q -> round_half_away x = round_half_away y.
Proof.
  intros H. unfold round_half_away.
  assert (H1 : Qle_bool 0 x = Qle_bool 0 y) by (now rewrite H).
  assert (H2 : Qfloor (x + (1 # 2)) = Qfloor (y + (1 # 2))) by (now rewrite H).
  assert (H3 : Qfloor (- x + (1 # 2)) = Qfloor (- y + (1 # 2))) by (now rewrite H).
  now rewrite H1, H2, H3.
Qed.

Lemma round_half_away_Z (z : Z) (x : Q) :
  (x == inject_Z z)%Q -> round_half_away x = z.
Proof.
  intros H. rewrite (round_half_away_comp _ _ H). unfold round_half_away.
  destruct (Qle_bool 0 (inject_Z z)).
  - unfold Qfloor, Qplus, inject_Z. simpl Qnum. simpl Qden.
    change (Z.pos (1 * 2)) with 2%Z.
    rewrite Z.mul_1_l. rewrite Z.div_add_l by discriminate.
    change (1 / 2)%Z with 0%Z. lia.
  - unfold Qfloor, Qplus, Qopp, inject_Z. simpl Qnum. simpl Qden.
    change (Z.pos (1 * 2)) with 2%Z.
    rewrite Z.mul_1_l. rewrite Z.div_add_l by discriminate.
    change (1 / 2)%Z with 0%Z. lia.
Qed.

Lemma to_DECIMAL2_comp (x y : Q) : (x == y)%Q -> to_DECIMAL2 x = to_DECIMAL2 y.
Proof. intros H. unfold to_DECIMAL2. apply round_half_away_comp. now rewrite H. Qed.

Lemma to_DECIMAL2_hundredths (h : Z) (x : Q) :
  (x * inject_Z 100 == inject_Z h)%Q -> to_DECIMAL2 x = h.
Proof. intros H. unfold to_DECIMAL2. now apply round_half_away_Z. Qed.

Lemma toFixed2_number_hundredths (h : Z) (x : Q) :
  (x * inject_Z 100 == inject_Z h)%Q -> toFixed2_number x = h.
Proof.
  intros H. unfold toFixed2_number. rewrite H.
  unfold Qfloor, Qplus, inject_Z. simpl Qnum. simpl Qden.
  change (Z.pos (1 * 2)) with 2%Z.
  rewrite Z.mul_1_l. rewrite Z.div_add_l by discriminate.
  change (1 / 2)%Z with 0%Z. lia.
Qed.

(** The product of a whole-hundredths price and an integer quantity is
    kept exactly by a DECIMAL(10,2) column. *)
Lemma line_total_exact (price quantity : Q) :
  whole_hundredths price -> whole_number quantity ->
  to_DECIMAL2 (price * quantity) = (to_DECIMAL2 price * to_INT quantity)%Z.
Proof.
  unfold whole_hundredths, whole_number. intros Hp Hq.
  apply to_DECIMAL2_hundredths. rewrite inject_Z_mult, <- Hp, <- Hq. ring.
Qed.

Lemma collect_json_acc (its : list json_item) (sub : Q) (lines : list json_order_line) :
  fold_left
    (fun (acc : Q * list json_order_line) (it : json_item) =>
       let itemTotal := (jitem_price it * jitem_quantity it)%Q in
       ((fst acc + itemTotal)%Q,
        (snd acc ++ [mkJsonLine (jitem_product it) (jitem_name it) (jitem_price it)
                                (jitem_quantity it) itemTotal])%list))
    its (sub, lines)
  = (fold_left (fun a it => (a + jitem_price it * jitem_quantity it)%Q) its sub,
     (lines ++ map (fun it => mkJsonLine (jitem_product it) (jitem_name it) (jitem_price it)
                                         (jitem_quantity it)
                                         (jitem_price it * jitem_quantity it)%Q) its)%list).
Proof.
  revert sub lines.
  induction its as [|it its IH]; intros sub lines; simpl.
  - now rewrite app_nil_r.
  - rewrite IH. simpl. now rewrite <- app_assoc.
Qed.

Lemma json_subtotal_exact (its : list json_item) :
  Forall (fun it => whole_hundredths (jitem_price it) /\ whole_number (jitem_quantity it))
         its ->
  forall (a : Q) (h : Z),
    (a * inject_Z 100 == inject_Z h)%Q ->
    (fold_left (fun a it => (a + jitem_price it * jitem_quantity it)%Q) its a * inject_Z 100
     == inject_Z (h + subtotal_of (map item_of_json its)))%Q.
Proof.
  induction 1 as [|it its [Hp Hq] _ IH]; intros a h Ha; simpl.
  - now rewrite Z.add_0_r.
  - rewrite (IH _ (h + to_DECIMAL2 (jitem_price it) * to_INT (jitem_quantity it))%Z).
    + apply inject_Z_injective. lia.
    + unfold whole_hundredths, whole_number in *.
      rewrite inject_Z_plus, inject_Z_mult, <- Ha, <- Hp, <- Hq. ring.
Qed.

(** When the second loop runs to its end, it has appended one row per
    element of [orderItems] and has left the orders alone. *)
Lemma persist_json_lines_ok (orderId : Z) (lines : list json_order_line) :
  forall db db',
    for_of lines (persist_json_line orderId) db = (Ok tt, db') ->
    orders db' = orders db /\
    order_items db' = (order_items db ++ map (json_order_item_row orderId) lines)%list.
Proof.
  induction lines as [|l lines IH]; intros db db' Hrun.
  - simpl in Hrun. injection Hrun as <-. now rewrite app_nil_r.
  - simpl in Hrun. unfold bind, persist_json_line, bind, insert_order_item in Hrun.
    destruct (existsb _ (orders db) && product_exists _ db); [|discriminate].
    unfold decrement_stock_json in Hrun. cbv beta iota in Hrun.
    apply IH in Hrun. destruct Hrun as [Ho Hl]. simpl in Ho, Hl.
    split; [exact Ho|]. rewrite Hl, <- app_assoc. reflexivity.
Qed.

(** What a 201 of POST /orders has written, on arbitrary numbers. *)
Lemma create_order_json_success_inv env user req db :
  status (fst (create_order_json env user req db)) = 201 ->
  let subtotal :=
    fold_left (fun a it => (a + jitem_price it * jitem_quantity it)%Q) (jr_items req) 0%Q in
  json (fst (create_order_json env user req db))
  = OrderCreated "Order created successfully" (next_order_id db)
                 (generateOrderNumber (jnow env) (jrandom env))
                 (toFixed2_number (subtotal + 0 + 0)) /\
  orders (snd (create_order_json env user req db))
  = (orders db ++
       [mkOrder (next_order_id db) (generateOrderNumber (jnow env) (jrandom env))
                user pending
                (to_DECIMAL2 subtotal) (to_DECIMAL2 0) (to_DECIMAL2 0)
                (to_DECIMAL2 (subtotal + 0 + 0))
                (address (jr_shippingAddress req)) (city (jr_shippingAddress req))
                (state (jr_shippingAddress req)) (zipCode (jr_shippingAddress req))
                (jr_deliveryMethod req)])%list /\
  order_items (snd (create_order_json env user req db))
  = (order_items db ++
       map (fun it => mkOrderItem (next_order_id db) (jitem_product it) (jitem_name it)
                                  (to_DECIMAL2 (jitem_price it))
                                  (to_INT (jitem_quantity it))
                                  (to_DECIMAL2 (jitem_price it * jitem_quantity it)))
           (jr_items req))%list.
Proof.
  destruct (create_order_json env user req db) as [r db'] eqn:E. simpl. intros Hok.
  unfold create_order_json, try_catch in E.
  destruct (negb (is_empty (validate_json_order req)));
    [injection E as <- <-; discriminate|].
  unfold collect_json_items in E. rewrite collect_json_acc in E. cbn [app] in E.
  cbv zeta in E. unfold bind at 1 in E.
  unfold executeTransaction in E. cbn [run_queries] in E. unfold bind at 1 in E.
  unfold insert_order at 1 in E.
  destruct (existsb _ (orders db)); [injection E as <- <-; discriminate|].
  unfold bind at 1 in E. unfold ret at 1 in E. unfold ret at 1 in E.
  cbv beta iota in E. unfold bind at 1 in E.
  match type of E with
  | context [for_of ?ls ?f ?d] => destruct (for_of ls f d) as [[[]|e] db2] eqn:Hrun
  end; [|injection E as <- <-; discriminate].
  apply persist_json_lines_ok in Hrun. destruct Hrun as [Ho Hl]. simpl in Ho, Hl.
  unfold bind, sendOrderConfirmationEmail_json, ret in E.
  destruct (jsendMail env _); injection E as <- <-; simpl;
    (split; [reflexivity|]); (split; [exact Ho|]);
    rewrite Hl, map_map; reflexivity.
Qed.

(** C2, as the code has it.  For every order created by POST /orders
    (response 201) the persisted [total_amount] equals the persisted
    [subtotal + shipping_cost + tax_amount] exactly, and one order line is
    persisted per submitted item.  When every submitted price is a whole
    number of hundredths and every submitted quantity an integer, the
    persisted subtotal is the sum over the submitted items of
    [price * quantity], it is the total the response reports, and the
    [total_price] of each persisted line is its persisted unit price times
    its persisted quantity. *)
Theorem created_order_integrity_on_whole_hundredths env user req db :
  status (fst (create_order_json env user req db)) = 201 ->
  exists o new_lines,
    orders (snd (create_order_json env user req db)) = (orders db ++ [o])%list /\
    order_items (snd (create_order_json env user req db))
    = (order_items db ++ new_lines)%list /\
    o_total_amount o = (o_subtotal o + o_shipping_cost o + o_tax_amount o)%Z /\
    map (fun l => (oi_order_id l, oi_product_id l, oi_product_name l)) new_lines
    = map (fun it => (o_id o, jitem_product it, jitem_name it)) (jr_items req) /\
    (Forall (fun it => whole_hundredths (jitem_price it) /\ whole_number (jitem_quantity it))
            (jr_items req) ->
     json (fst (create_order_json env user req db))
     = OrderCreated "Order created successfully" (o_id o) (o_order_number o)
                    (o_total_amount o) /\
     o_subtotal o = subtotal_of (map item_of_json (jr_items req)) /\
     new_lines
     = map (fun it => mkOrderItem (o_id o) (jitem_product it) (jitem_name it)
                                  (to_DECIMAL2 (jitem_price it))
                                  (to_INT (jitem_quantity it))
                                  (to_DECIMAL2 (jitem_price it) * to_INT (jitem_quantity it)))
           (jr_items req) /\
     Forall (fun l => oi_total_price l = (oi_product_price l * oi_quantity l)%Z) new_lines).
Proof.
  intros Hok.
  destruct (create_order_json_success_inv env user req db Hok) as (Hj & Ho & Hl).
  cbv zeta in Hj, Ho.
  eexists. eexists. split; [exact Ho|]. split; [exact Hl|]. cbn [o_total_amount
    o_subtotal o_shipping_cost o_tax_amount o_id o_order_number].
  assert (Hzero : to_DECIMAL2 0 = 0%Z) by reflexivity.
  split; [|split].
  - rewrite Hzero, !Z.add_0_r. apply to_DECIMAL2_comp. ring.
  - rewrite map_map. reflexivity.
  - intros Hall.
    assert (Hsub := json_subtotal_exact (jr_items req) Hall 0%Q 0%Z).
    rewrite Z.add_0_l in Hsub. specialize (Hsub ltac:(reflexivity)).
    split; [|split; [|split]].
    + rewrite Hj. f_equal.
      rewrite (to_DECIMAL2_hundredths (subtotal_of (map item_of_json (jr_items req)))),
              (toFixed2_number_hundredths (subtotal_of (map item_of_json (jr_items req))));
        [reflexivity| |]; rewrite <- Hsub; ring.
    + now apply to_DECIMAL2_hundredths.
    + apply map_ext_in. intros it Hit. rewrite Forall_forall in Hall.
      destruct (Hall it Hit) as [Hp Hq]. f_equal. now apply line_total_exact.
    + apply Forall_forall. intros l Hl'. apply in_map_iff in Hl'.
      destruct Hl' as (it & <- & Hit). rewrite Forall_forall in Hall.
      destruct (Hall it Hit) as [Hp Hq]. simpl. now apply line_total_exact.
Qed.

Lemma created_order_integrity_on_whole_hundredths_witness :
  exists o new_lines,
    orders (snd (create_order_json sample_json_env 7 (sample_json_request 5 4) sample_db))
    = ([] ++ [o])%list /\
    order_items (snd (create_order_json sample_json_env 7 (sample_json_request 5 4)
                        sample_db))
    = ([] ++ new_lines)%list /\
    o_total_amount o = (o_subtotal o + o_shipping_cost o + o_tax_amount o)%Z /\
    o_subtotal o = 2000%Z /\
    new_lines = [mkOrderItem (o_id o) 1 "Olive oil" 500 4 2000] /\
    Forall (fun l => oi_total_price l = (oi_product_price l * oi_quantity l)%Z) new_lines.
Proof.
  destruct (created_order_integrity_on_whole_hundredths sample_json_env 7
              (sample_json_request 5 4) sample_db eq_refl)
    as (o & new_lines & Ho & Hl & Ht & _ & Hwhole).
  assert (Hall : Forall (fun it => whole_hundredths (jitem_price it) /\
                                   whole_number (jitem_quantity it))
                        (jr_items (sample_json_request 5 4))).
  { constructor; [|constructor]. split; reflexivity. }
  destruct (Hwhole Hall) as (_ & Hs & Hn & Hf).
  exists o, new_lines. repeat split; assumption.
Defined.

(** C2 fails as stated.  A request for 3 units at the client-supplied price
    1.004 is accepted (201); the order line is persisted with unit price
    1.00, quantity 3 and total price 3.01, which is not 1.00 x 3, and the
    persisted subtotal 3.01 is not the sum 3.012 of the submitted
    [price * quantity]. *)
Lemma sub_cent_price_breaks_line_total :
  let out := create_order_json sample_json_env 7
               (sample_json_request (1004 # 1000) 3) sample_db in
  status (fst out) = 201 /\
  order_items (snd out) = [mkOrderItem 1 1 "Olive oil" 100 3 301] /\
  map o_subtotal (orders (snd out)) = [301] /\
  ~ Forall (fun l => oi_total_price l = (oi_product_price l * oi_quantity l)%Z)
           (order_items (snd out)) /\
  ~ (inject_Z 301 == (1004 # 1000) * 3 * inject_Z 100)%Q.
Proof.
  cbv zeta. split; [reflexivity|]. split; [reflexivity|]. split; [reflexivity|]. split.
  - intros H. apply Forall_inv in H. simpl in H. discriminate.
  - intros H. unfold Qeq in H. simpl in H. discriminate.
Qed.

(** ** The two embeddings of POST /orders agree on whole hundredths *)

Lemma validate_json_refines req :
  validate_json_order req = validate_order (request_of_json req).
Proof.
  unfold validate_json_order, validate_order, request_of_json. simpl.
  destruct (jr_items req); reflexivity.
Qed.

Lemma decrement_stock_json_refines (quantity : Q) (productId : Z) db :
  whole_number quantity ->
  decrement_stock_json quantity productId db
  = decrement_stock (to_INT quantity) productId db.
Proof.
  unfold whole_number. intros Hq.
  unfold decrement_stock_json, decrement_stock, stock_minus. do 2 f_equal.
  apply map_ext. intros p. destruct (p_id p =? productId); [|reflexivity].
  f_equal. unfold to_INT at 1. apply round_half_away_Z.
  set (z := to_INT quantity) in *. rewrite Hq.
  unfold Z.sub. rewrite inject_Z_plus, inject_Z_opp. reflexivity.
Qed.

Lemma persist_json_lines_refine (orderId : Z) (its : list json_item) :
  Forall (fun it => whole_hundredths (jitem_price it) /\ whole_number (jitem_quantity it))
         its ->
  forall db,
    for_of (map (fun it => mkJsonLine (jitem_product it) (jitem_name it) (jitem_price it)
                                      (jitem_quantity it)
                                      (jitem_price it * jitem_quantity it)%Q) its)
           (persist_json_line orderId) db
    = for_of (map line_of_item (map item_of_json its)) (persist_line orderId) db.
Proof.
  induction 1 as [|it its [Hp Hq] _ IH]; intros db; [reflexivity|].
  cbn [map for_of]. unfold bind.
  assert (Hstep : persist_json_line orderId
                    (mkJsonLine (jitem_product it) (jitem_name it) (jitem_price it)
                                (jitem_quantity it) (jitem_price it * jitem_quantity it)%Q) db
                  = persist_line orderId (line_of_item (item_of_json it)) db).
  { unfold persist_json_line, persist_line, bind.
    assert (Hrow : json_order_item_row orderId
                     (mkJsonLine (jitem_product it) (jitem_name it) (jitem_price it)
                                 (jitem_quantity it) (jitem_price it * jitem_quantity it)%Q)
                   = order_item_row orderId (line_of_item (item_of_json it))).
    { unfold json_order_item_row, order_item_row. simpl. f_equal.
      now apply line_total_exact. }
    rewrite Hrow. destruct (insert_order_item _ db) as [[[]|e] d]; [|reflexivity].
    simpl. now apply decrement_stock_json_refines. }
  rewrite Hstep. destruct (persist_line orderId _ db) as [[[]|e] d]; [|reflexivity].
  apply IH.
Qed.

(** On a request whose prices are whole hundredths and whose quantities are
    integers, the handler on JSON numbers answers and writes exactly what
    [create_order] answers and writes on the same request read in
    hundredths. *)
Lemma create_order_json_refines jenv env user req db :
  jnow jenv = now env -> jrandom jenv = random env ->
  Forall (fun it => whole_hundredths (jitem_price it) /\ whole_number (jitem_quantity it))
         (jr_items req) ->
  create_order_json jenv user req db = create_order env user (request_of_json req) db.
Proof.
  intros Hnow Hrnd Hall.
  assert (Hsub := json_subtotal_exact (jr_items req) Hall 0%Q 0%Z).
  rewrite Z.add_0_l in Hsub. specialize (Hsub ltac:(reflexivity)).
  set (S := subtotal_of (map item_of_json (jr_items req))) in *.
  unfold create_order_json, create_order, try_catch.
  rewrite validate_json_refines.
  destruct (negb (is_empty (validate_order (request_of_json req)))); [reflexivity|].
  unfold collect_json_items. rewrite collect_json_acc, collect_items_eq. cbn [app].
  cbv zeta. cbn [items shippingAddress deliveryMethod request_of_json].
  fold S.
  set (Q0 := fold_left (fun a it => (a + jitem_price it * jitem_quantity it)%Q)
                       (jr_items req) 0%Q) in *.
  assert (H1 : to_DECIMAL2 Q0 = S) by now apply to_DECIMAL2_hundredths.
  assert (H2 : to_DECIMAL2 (Q0 + 0 + 0) = (S + 0 + 0)%Z).
  { apply to_DECIMAL2_hundredths. rewrite !Z.add_0_r, <- Hsub. ring. }
  assert (H3 : toFixed2_number (Q0 + 0 + 0) = (S + 0 + 0)%Z).
  { apply toFixed2_number_hundredths. rewrite !Z.add_0_r, <- Hsub. ring. }
  assert (H0 : to_DECIMAL2 0 = 0%Z) by reflexivity.
  rewrite H1, H2, H3, H0, Hnow, Hrnd.
  unfold bind.
  destruct (executeTransaction _ db) as [[results|e] db1]; [|reflexivity].
  destruct results as [|orderId more]; [reflexivity|].
  rewrite (persist_json_lines_refine orderId _ Hall db1).
  destruct (for_of _ (persist_line orderId) db1) as [[[]|e] db2]; [|reflexivity].
  unfold sendOrderConfirmationEmail_json, sendOrderConfirmationEmail, ret.
  destruct (jsendMail jenv _); destruct (sendMail env _); reflexivity.
Qed.
